(** * Weekly replenishment planner: the agent pipeline of [app.py]

    A shallow embedding of the decision core of [app.py]
    ([ForecastAgent], [ReplenishmentAgent], [BudgetAgent],
    [ReportingAgent], the grouping of [DataAgent] and the selection of
    [auto_order]) and the properties of its specification.

    Conventions of the embedding.
    - Python [int] is [Z].
    - Python [float] is binary64.  A float is represented by its exact
      value, a rational in [Q], and every float operation rounds its exact
      result to the nearest binary64 value, ties to even ([Py.rnd], with
      gradual underflow): [Py.fadd], [Py.fsub], [Py.fmul], the conversion
      [Py.float_of_int] and the true division of two ints [Py.truediv].
      Comparisons, also between an int and a float, are exact, as in
      Python.  The model has the finite floats only: infinities, NaN and
      overflow beyond the largest binary64 value are outside it, and
      negative zero is not told apart from zero.
    - A value that Python types dynamically as an int or a float (the
      required stock) is a [Py.num].
    - [sum] adds from the int [0], left to right.
    - A Python [dict] used as a record (a database row, a plan line) is a
      [Record]; a key that the code reads with [.get(key, default)] or
      tests with [in] is an [option] field, [None] for an absent key.  SQL
      [NULL] values, on which [int] and [float] raise, are outside the
      model.  A [dict] used as a map from product ids is a [gmap Z _].
    - A raised exception is [None]: the functions that can raise return
      [option].
    - The plan lines are mutated in place by [BudgetAgent.apply]; the
      embedding returns the updated lines.  The lines that
      [ReplenishmentAgent.build_plan] appends are fresh objects, so no
      aliasing has to be tracked. *)

From Stdlib Require Import QArith Qround Qabs Qminmax Lqa Lia ZArith String DecimalString.
From stdpp Require Import gmap list strings sorting.

Local Open Scope Z_scope.

(** ** Python primitives used by the agents *)

Module Py.

(** [a < b] on numbers, as a boolean; the comparison is exact. *)
Definition Qlt_bool (a b : Q) : bool := negb (Qle_bool b a).

(** [round(x)] of a float: the nearest integer, ties to the even one. *)
Definition round (x : Q) : Z :=
  let f := Qfloor x in
  match (x - inject_Z f ?= 1 # 2)%Q with
  | Lt => f
  | Gt => f + 1
  | Eq => if Z.even f then f else f + 1
  end.

(** Binary64 rounding.  A value is scaled by [2^1074], so that the
    smallest subnormal step is 1; a scaled value of more than 53 bits is
    rounded to a multiple of [2^shift], which leaves 53 bits. *)
Definition scale : Z := 2 ^ 1074.

Definition shift (y : Q) : Z := Z.max 0 (Z.log2 (Qfloor (Qabs y)) - 52).

Definition rnd_scaled (y : Q) : Z :=
  let s := shift y in round (y / inject_Z (2 ^ s)) * 2 ^ s.

(** The binary64 value nearest to [x], ties to even. *)
Definition rnd (x : Q) : Q :=
  Qred (inject_Z (rnd_scaled (x * inject_Z scale)) / inject_Z scale).

(** [x + y], [x - y] and [x * y] on floats. *)
Definition fadd (x y : Q) : Q := rnd (x + y).

Definition fsub (x y : Q) : Q := rnd (x - y).

Definition fmul (x y : Q) : Q := rnd (x * y).

(** [float(n)] for an int. *)
Definition float_of_int (n : Z) : Q := rnd (inject_Z n).

(** [a / b] for two ints: the correctly rounded quotient; [None] is the
    [ZeroDivisionError]. *)
Definition truediv (a b : Z) : option Q :=
  if b =? 0 then None else Some (rnd (inject_Z a / inject_Z b)).

(** [round(x, 2)]: the decimal with two digits nearest to [x], ties to
    even, read back as a float. *)
Definition round2 (x : Q) : Q := rnd (inject_Z (round (x * 100)) / 100).

(** A number that is an int or a float at run time. *)
Inductive num : Type :=
| Int (n : Z)
| Float (x : Q).

Definition value (a : num) : Q :=
  match a with
  | Int n => inject_Z n
  | Float x => x
  end.

(** [float(a)]. *)
Definition to_float (a : num) : Q :=
  match a with
  | Int n => float_of_int n
  | Float x => x
  end.

(** [a < b] for two numbers. *)
Definition num_lt (a b : num) : bool := Qlt_bool (value a) (value b).

(** [max(a, b)]: Python returns [a] unless [b > a]. *)
Definition max (a b : num) : num := if num_lt a b then b else a.

(** [a - c] with an int [c]: exact between ints, a float subtraction
    after [float(c)] otherwise. *)
Definition sub_int (a : num) (c : Z) : num :=
  match a with
  | Int n => Int (n - c)
  | Float x => Float (fsub x (float_of_int c))
  end.

(** [int(round(a))]. *)
Definition round_num (a : num) : Z :=
  match a with
  | Int n => n
  | Float x => round x
  end.

(** [str(n)] for an [int]. *)
Definition str (n : Z) : string := NilZero.string_of_int (Z.to_int n).

(** The format spec [.1f] on a float: one digit after the point, the
    exact value rounded to the nearest tenth, ties to even. *)
Definition format_1f (x : Q) : string :=
  let n := Z.abs (round (x * 10)) in
  ((if Qlt_bool x 0 then "-" else "") ++ str (n / 10) ++ "." ++ str (n mod 10))%string.

(** The format spec [.1f] on a number: an int is converted to a float first. *)
Definition format_1f_num (a : num) : string := format_1f (to_float a).

(** The slice [l[:k]]: the first [k] elements, or all but the last [-k]
    when [k] is negative. *)
Definition slice_to {A} (k : Z) (l : list A) : list A :=
  if 0 <=? k then take (Z.to_nat k) l
  else take (length l - Z.to_nat (- k))%nat l.

(** [sorted(l, key=key)] with [float] keys: a stable sort that only asks
    [key y < key x].  Insertion from the right keeps equal keys in their
    original order. *)
Section Sorted.
Context {A : Type} (key : A -> Q).

Fixpoint insert_sorted (x : A) (l : list A) : list A :=
  match l with
  | [] => [x]
  | y :: l' =>
      if Qlt_bool (key y) (key x) then y :: insert_sorted x l'
      else x :: y :: l'
  end.

Definition sorted (l : list A) : list A := foldr insert_sorted [] l.
End Sorted.

End Py.

(** ** Data model: the rows that [DataAgent.collect_state] returns *)

(** A row of [products].  [min_stock], [max_stock] and [cost_price] are
    read with [.get], so they may be absent. *)
Record Product := {
  product_id : Z;
  name : string;
  category : string;
  cost_price : option Q;
  selling_price : Q;
  min_stock : option Z;
  max_stock : option Z;
  lead_time_days : Z;
  active : Z
}.

(** A row of the stock query. *)
Record StockRow := {
  stock_product_id : Z;
  qty_in_hand : Z;
  last_updated : option string
}.

(** A row of [weekly_sales]. *)
Record SalesRow := {
  sales_product_id : Z;
  week_start_date : string;
  qty_sold : Z
}.

(** The [state] dict. *)
Record State := {
  products : list Product;
  stock_by_product : gmap Z StockRow;
  sales_by_product : gmap Z (list SalesRow)
}.

(** A plan line.  [unit_cost], [line_cost] and [budget_note] are the keys
    that [BudgetAgent.apply] adds. *)
Record PlanLine := {
  pl_product_id : Z;
  pl_name : string;
  avg_weekly_sales : Q;
  current_stock : Z;
  forecast_next_week : Q;
  suggested_order_qty : Z;
  reason : string;
  unit_cost : option Q;
  line_cost : option Q;
  budget_note : option string
}.

(** ** ForecastAgent *)

Module ForecastAgent.

(** [_avg_sales]; [None] is the [ZeroDivisionError] of [sum(qtys) / len(qtys)]. *)
Definition _avg_sales (max_weeks : Z) (rows : list SalesRow) : option Q :=
  match rows with
  | [] => Some 0%Q
  | _ =>
      let considered := Py.slice_to max_weeks rows in
      let qtys := map qty_sold considered in
      Py.truediv (foldl Z.add 0 qtys) (Z.of_nat (length qtys))
  end.

(** The loop of [forecast], with the dict built so far. *)
Fixpoint forecast_loop (max_weeks : Z) (state : State) (prods : list Product)
    (forecasts : gmap Z Q) : option (gmap Z Q) :=
  match prods with
  | [] => Some forecasts
  | prod :: rest =>
      let pid := product_id prod in
      let sales_rows := default [] (sales_by_product state !! pid) in
      avg ← _avg_sales max_weeks sales_rows;
      forecast_loop max_weeks state rest (<[pid := avg]> forecasts)
  end.

Definition forecast (max_weeks : Z) (state : State) : option (gmap Z Q) :=
  forecast_loop max_weeks state (products state) ∅.

End ForecastAgent.

(** ** ReplenishmentAgent *)

Module ReplenishmentAgent.

Definition slow_moving_reason : string :=
  "Slow-moving item (avg < 1/week) with stock available – no order.".

(** [current_stock] of a product: the stock row's quantity, [0] without a row. *)
Definition current_stock_of (state : State) (pid : Z) : Z :=
  match stock_by_product state !! pid with
  | Some stock_row => qty_in_hand stock_row
  | None => 0
  end.

(** [avg_sales = float(forecasts.get(pid, 0.0))]. *)
Definition avg_sales_of (forecasts : gmap Z Q) (pid : Z) : Q :=
  default 0%Q (forecasts !! pid).

(** [required_stock] after the cap by [max_stock]: the int [min_stock],
    the float [forecast * safety_factor] or the int [max_stock]. *)
Definition required_stock (safety_factor : Q) (min_stock max_stock : Z)
    (forecast_next_week : Q) : Py.num :=
  let required_stock :=
    Py.max (Py.Int min_stock) (Py.Float (Py.fmul forecast_next_week safety_factor)) in
  if Py.num_lt (Py.Int max_stock) required_stock then Py.Int max_stock
  else required_stock.

(** The body of the loop of [build_plan]: the line appended for [prod]. *)
Definition build_line (safety_factor : Q) (state : State) (forecasts : gmap Z Q)
    (prod : Product) : PlanLine :=
  let pid := product_id prod in
  let min_stock := default 0 (min_stock prod) in
  let max_stock := default 100 (max_stock prod) in
  let current_stock := current_stock_of state pid in
  let avg_sales := avg_sales_of forecasts pid in
  let forecast_next_week := avg_sales in
  let required_stock := required_stock safety_factor min_stock max_stock forecast_next_week in
  let order_qty := Py.round_num (Py.sub_int required_stock current_stock) in
  let order_qty := if order_qty <? 0 then 0 else order_qty in
  let '(reason, order_qty) :=
    if Py.Qlt_bool avg_sales 1 && (0 <? current_stock)
    then (slow_moving_reason, 0)
    else (("Avg sales ≈ " ++ Py.format_1f avg_sales ++ "/week, "
           ++ "current stock = " ++ Py.str current_stock ++ ", "
           ++ "target stock ≈ " ++ Py.format_1f_num required_stock ++ ".")%string,
          order_qty) in
  {| pl_product_id := pid;
     pl_name := name prod;
     avg_weekly_sales := Py.round2 avg_sales;
     current_stock := current_stock;
     forecast_next_week := Py.round2 forecast_next_week;
     suggested_order_qty := order_qty;
     reason := reason;
     unit_cost := None;
     line_cost := None;
     budget_note := None |}.

Definition build_plan (safety_factor : Q) (state : State) (forecasts : gmap Z Q)
    : list PlanLine :=
  map (build_line safety_factor state forecasts) (products state).

End ReplenishmentAgent.

(** ** BudgetAgent *)

Module BudgetAgent.

Definition within_note : string := "Within weekly budget".
Definition dropped_note : string := "Dropped due to budget limit".
Definition kept_note : string := "Kept in final order".

(** [price_index]: a later product with the same id overwrites an earlier one. *)
Definition price_index (products : list Product) : gmap Z Q :=
  foldl (fun idx p => <[product_id p := default 0%Q (cost_price p)]> idx) ∅ products.

(** The first loop: [row["unit_cost"] = cp; row["line_cost"] = cp * qty]. *)
Definition price_row (price_index : gmap Z Q) (row : PlanLine) : PlanLine :=
  let cp := default 0%Q (price_index !! pl_product_id row) in
  {| pl_product_id := pl_product_id row;
     pl_name := pl_name row;
     avg_weekly_sales := avg_weekly_sales row;
     current_stock := current_stock row;
     forecast_next_week := forecast_next_week row;
     suggested_order_qty := suggested_order_qty row;
     reason := reason row;
     unit_cost := Some cp;
     line_cost := Some (Py.fmul cp (Py.float_of_int (suggested_order_qty row)));
     budget_note := budget_note row |}.

(** [r["budget_note"] = note]. *)
Definition set_budget_note (note : string) (row : PlanLine) : PlanLine :=
  {| pl_product_id := pl_product_id row;
     pl_name := pl_name row;
     avg_weekly_sales := avg_weekly_sales row;
     current_stock := current_stock row;
     forecast_next_week := forecast_next_week row;
     suggested_order_qty := suggested_order_qty row;
     reason := reason row;
     unit_cost := unit_cost row;
     line_cost := line_cost row;
     budget_note := Some note |}.

(** The three assignments that drop a row from the order. *)
Definition drop_row (row : PlanLine) : PlanLine :=
  {| pl_product_id := pl_product_id row;
     pl_name := pl_name row;
     avg_weekly_sales := avg_weekly_sales row;
     current_stock := current_stock row;
     forecast_next_week := forecast_next_week row;
     suggested_order_qty := 0;
     reason := reason row;
     unit_cost := unit_cost row;
     line_cost := Some 0%Q;
     budget_note := Some dropped_note |}.

(** [if "budget_note" not in r: r["budget_note"] = "Kept in final order"]. *)
Definition stamp_kept (row : PlanLine) : PlanLine :=
  match budget_note row with
  | Some _ => row
  | None => set_budget_note kept_note row
  end.

(** [sum(r["line_cost"] for r in plan)], adding left to right from the
    accumulator [acc]; [None] is the [KeyError] of a row without the key. *)
Fixpoint sum_line_cost (acc : Q) (plan : list PlanLine) : option Q :=
  match plan with
  | [] => Some acc
  | r :: rest => c ← line_cost r; sum_line_cost (Py.fadd acc c) rest
  end.

(** The dropping loop over [sorted_plan], with its [break] and [continue]. *)
Fixpoint drop_loop (excess : Q) (rows : list PlanLine) : option (list PlanLine) :=
  match rows with
  | [] => Some []
  | row :: rest =>
      if Qle_bool excess 0 then Some (row :: rest)
      else if suggested_order_qty row <=? 0
      then rest' ← drop_loop excess rest; Some (row :: rest')
      else
        reduction_cost ← line_cost row;
        rest' ← drop_loop (Py.fsub excess reduction_cost) rest;
        Some (drop_row row :: rest')
  end.

Definition apply (weekly_budget : Q) (plan : list PlanLine) (products : list Product)
    : option (list PlanLine) :=
  let price_index := price_index products in
  let plan := map (price_row price_index) plan in
  total_cost ← sum_line_cost 0 plan;
  if Qle_bool total_cost weekly_budget
  then Some (map (set_budget_note within_note) plan)
  else
    let sorted_plan := Py.sorted avg_weekly_sales plan in
    let excess := Py.fsub total_cost weekly_budget in
    sorted_plan ← drop_loop excess sorted_plan;
    Some (map stamp_kept sorted_plan).

End BudgetAgent.

(** ** The pipeline: [build_plan] followed by [apply] *)

Definition plan_pipeline (safety_factor weekly_budget : Q) (state : State)
    (forecasts : gmap Z Q) : option (list PlanLine) :=
  BudgetAgent.apply weekly_budget
    (ReplenishmentAgent.build_plan safety_factor state forecasts) (products state).

(** [run_agent_pipeline] up to the budgeted plan, with the agents'
    parameters explicit. *)
Definition run_agent_pipeline (max_weeks : Z) (safety_factor weekly_budget : Q)
    (state : State) : option (list PlanLine) :=
  forecasts ← ForecastAgent.forecast max_weeks state;
  plan_pipeline safety_factor weekly_budget state forecasts.


(** The module-level agents: [max_weeks=4], [safety_factor=1.5],
    [weekly_budget=25000.0]. *)
Definition default_max_weeks : Z := 4.
Definition default_safety_factor : Q := 3 # 2.
Definition default_weekly_budget : Q := 25000.

(** ** Concrete snapshots used by the examples *)

Module Examples.

(** One product, no stock row, no sales: scenario 1 of the specification. *)
Definition prod_basic : Product :=
  {| product_id := 1; name := "Rice"; category := "Grocery";
     cost_price := Some 5%Q; selling_price := 8%Q;
     min_stock := Some 10; max_stock := Some 100;
     lead_time_days := 3; active := 1 |}.

Definition state_basic : State :=
  {| products := [prod_basic]; stock_by_product := ∅; sales_by_product := ∅ |}.

Definition sale (pid qty : Z) : SalesRow :=
  {| sales_product_id := pid; week_start_date := "2024-01-01"; qty_sold := qty |}.

Definition stock (pid qty : Z) : StockRow :=
  {| stock_product_id := pid; qty_in_hand := qty; last_updated := None |}.

(** The same product with four weeks of sales averaging 2.25 and 3 in stock. *)
Definition state_selling : State :=
  {| products := [prod_basic];
     stock_by_product := {[ 1 := stock 1 3 ]};
     sales_by_product := {[ 1 := [sale 1 9; sale 1 0; sale 1 0; sale 1 0] ]} |}.

(** The same product with two weeks of sales averaging 0.5: a slow mover with stock. *)
Definition state_slow : State :=
  {| products := [prod_basic];
     stock_by_product := {[ 1 := stock 1 3 ]};
     sales_by_product := {[ 1 := [sale 1 1; sale 1 0] ]} |}.

(** A catalog entry with a negative cost price, as the products form accepts. *)
Definition prod_negative_cost : Product :=
  {| product_id := 1; name := "Voucher"; category := "Misc";
     cost_price := Some (-5)%Q; selling_price := 0%Q;
     min_stock := Some 10; max_stock := Some 100;
     lead_time_days := 3; active := 1 |}.

Definition state_negative_cost : State :=
  {| products := [prod_negative_cost]; stock_by_product := ∅; sales_by_product := ∅ |}.

(** Two products at 1000 a unit; the first sells more (avg 8) than the
    second (avg 5).  Their orders, 12 and 30 units, cost 42000. *)
Definition prod_fast : Product :=
  {| product_id := 1; name := "Oil"; category := "Grocery";
     cost_price := Some 1000%Q; selling_price := 1200%Q;
     min_stock := Some 10; max_stock := Some 100;
     lead_time_days := 3; active := 1 |}.

Definition prod_slower : Product :=
  {| product_id := 2; name := "Ghee"; category := "Grocery";
     cost_price := Some 1000%Q; selling_price := 1300%Q;
     min_stock := Some 30; max_stock := Some 100;
     lead_time_days := 3; active := 1 |}.

Definition state_over : State :=
  {| products := [prod_fast; prod_slower];
     stock_by_product := ∅;
     sales_by_product :=
       {[ 1 := [sale 1 8; sale 1 8]; 2 := [sale 2 4; sale 2 6] ]} |}.




(** A float written as a decimal literal: the binary64 value nearest to it. *)
Definition literal (numerator : Z) (denominator : positive) : Q :=
  Py.rnd (numerator # denominator).

(** Two products against the default budget: one unit at 10000.0 with no
    sales, and 25 units at 1000.0000000000001 with average sales 2. *)
Definition prod_dear : Product :=
  {| product_id := 1; name := "Mixer"; category := "Appliance";
     cost_price := Some (literal 10000 1); selling_price := 12000%Q;
     min_stock := Some 1; max_stock := Some 100;
     lead_time_days := 3; active := 1 |}.

Definition prod_odd_price : Product :=
  {| product_id := 2; name := "Kettle"; category := "Appliance";
     cost_price := Some (literal 10000000000000001 10000000000000);
     selling_price := 1200%Q;
     min_stock := Some 25; max_stock := Some 100;
     lead_time_days := 3; active := 1 |}.

Definition state_rounding : State :=
  {| products := [prod_dear; prod_odd_price];
     stock_by_product := ∅;
     sales_by_product := {[ 2 := [sale 2 2; sale 2 2] ]} |}.

(** A plan line with only the fields that [apply] reads. *)
Definition bare_line (pid : Z) (avg : Q) (qty : Z) : PlanLine :=
  {| pl_product_id := pid; pl_name := ""; avg_weekly_sales := avg;
     current_stock := 0; forecast_next_week := avg;
     suggested_order_qty := qty; reason := "";
     unit_cost := None; line_cost := None; budget_note := None |}.

(** A catalog entry with only an id and a cost price. *)
Definition bare_product (pid : Z) (cost : Q) : Product :=
  {| product_id := pid; name := ""; category := "";
     cost_price := Some cost; selling_price := 0%Q;
     min_stock := None; max_stock := None;
     lead_time_days := 3; active := 1 |}.

End Examples.


(** ** ReportingAgent *)

Module ReportingAgent.

Definition no_products_message : string := "No products found in the system.".

(** [len(plan)]. *)
Definition total_products (plan : list PlanLine) : Z := Z.of_nat (length plan).

(** [sum(p["suggested_order_qty"] for p in plan)]. *)
Definition total_to_order (plan : list PlanLine) : Z :=
  foldl Z.add 0 (map suggested_order_qty plan).

(** [sum(1 for p in plan if cond(p))]. *)
Definition count_if (cond : PlanLine -> bool) (plan : list PlanLine) : Z :=
  foldl Z.add 0 (map (fun _ => 1) (List.filter cond plan)).

Definition slow_moving (plan : list PlanLine) : Z :=
  count_if (fun p => Py.Qlt_bool (avg_weekly_sales p) 1 && (0 <? current_stock p)) plan.

Definition zero_stock_items (plan : list PlanLine) : Z :=
  count_if (fun p => current_stock p =? 0) plan.

Definition no_order_this_week (plan : list PlanLine) : Z :=
  count_if (fun p => suggested_order_qty p =? 0) plan.

Definition summarize (plan : list PlanLine) : string :=
  match plan with
  | [] => no_products_message
  | _ =>
      String.concat " "
        [ ("Analyzed " ++ Py.str (total_products plan)
           ++ " products for this week's replenishment.")%string;
          ("Total quantity suggested to order: " ++ Py.str (total_to_order plan)
           ++ " units.")%string;
          (Py.str (slow_moving plan)
           ++ " items are slow-moving and are skipped for ordering.")%string;
          (Py.str (zero_stock_items plan)
           ++ " items currently have zero stock and are prioritized where needed.")%string;
          ("For " ++ Py.str (no_order_this_week plan)
           ++ " items, no purchase is needed this week.")%string ]
  end.

End ReportingAgent.

(** ** DataAgent: the state built from the three query results *)

Module DataAgent.

(** The loop [sales_by_product.setdefault(pid, []).append(row)]. *)
Definition group_sales (sales : list SalesRow) : gmap Z (list SalesRow) :=
  foldl (fun acc row =>
           let pid := sales_product_id row in
           <[pid := default [] (acc !! pid) ++ [row]]> acc)
        ∅ sales.

(** [{row["product_id"]: row for row in stock}]. *)
Definition index_stock (stock : list StockRow) : gmap Z StockRow :=
  foldl (fun acc row => <[stock_product_id row := row]> acc) ∅ stock.

(** [collect_state], from the rows that its three queries fetched: the
    active products, the stock rows and the weekly sales (most recent
    first). *)
Definition collect_state (products : list Product) (stock : list StockRow)
    (sales : list SalesRow) : State :=
  {| products := products;
     stock_by_product := index_stock stock;
     sales_by_product := group_sales sales |}.

End DataAgent.

(** ** [run_agent_pipeline] with its summary, and the selection of [auto_order] *)

(** [run_agent_pipeline] on a collected state: the budgeted plan and the summary. *)
Definition run_agent_pipeline_summary (max_weeks : Z) (safety_factor weekly_budget : Q)
    (state : State) : option (list PlanLine * string) :=
  budgeted_plan ← run_agent_pipeline max_weeks safety_factor weekly_budget state;
  Some (budgeted_plan, ReportingAgent.summarize budgeted_plan).

(** [items_to_order = [p for p in plan if p["suggested_order_qty"] > 0]]. *)
Definition items_to_order (plan : list PlanLine) : list PlanLine :=
  List.filter (fun p => 0 <? suggested_order_qty p) plan.

(** The rows that [auto_order] inserts into [purchase_order_items]
    (product id, product name, quantity); [None] when it creates no
    purchase order because no item requires ordering. *)
Definition purchase_order_items (plan : list PlanLine) : option (list (Z * string * Z)) :=
  match items_to_order plan with
  | [] => None
  | items => Some (map (fun item => (pl_product_id item, pl_name item,
                                     suggested_order_qty item)) items)
  end.

(** ** The week start used by [sales] and [auto_order] *)

Module PyDate.

(** A [date] is its proleptic Gregorian ordinal ([date.toordinal()]);
    [d - timedelta(days=k)] is the date of ordinal [d - k].
    [date.weekday()]: Monday is 0, and ordinal 1 is a Monday. *)
Definition weekday (ordinal : Z) : Z := (ordinal + 6) mod 7.

End PyDate.

(** [today - timedelta(days=today.weekday())]: the default date of the
    sales form and the [week_start] of a purchase order. *)
Definition week_start (today : Z) : Z := today - PyDate.weekday today.
(** ** Vocabulary of the specification *)

#[global] Instance Qeq_decision (x y : Q) : Decision (x == y)%Q := Qeq_dec x y.


(** The cost a line carries. *)
Definition cost_of (r : PlanLine) : Q := default 0%Q (line_cost r).

(** A plan line as the data model has it: a non-negative quantity. *)
Definition well_formed_plan (plan : list PlanLine) : Prop :=
  Forall (fun r => 0 <= suggested_order_qty r) plan.

(** The unit cost of a product id in the catalog, [0] when it has none. *)
Definition catalog_cost (products : list Product) (pid : Z) : Q :=
  default 0%Q (BudgetAgent.price_index products !! pid).

(** The plan after the pricing loop of [apply]. *)
Definition priced_plan (products : list Product) (plan : list PlanLine) : list PlanLine :=
  map (BudgetAgent.price_row (BudgetAgent.price_index products)) plan.

(** The total cost as [apply] computes it: the float sum, left to right,
    of the line costs [unit_cost * quantity]. *)
Definition total_cost (products : list Product) (plan : list PlanLine) : Q :=
  foldl Py.fadd 0%Q (map cost_of (priced_plan products plan)).

(** What [apply] may do to a line: every field that [build_plan] wrote is
    kept, except that the quantity may be set to zero; the line is priced
    at the catalog's unit cost, for the quantity it ends with. *)
Definition budget_step (products : list Product) (r r' : PlanLine) : Prop :=
  pl_product_id r' = pl_product_id r /\
  pl_name r' = pl_name r /\
  avg_weekly_sales r' = avg_weekly_sales r /\
  current_stock r' = current_stock r /\
  forecast_next_week r' = forecast_next_week r /\
  reason r' = reason r /\
  (suggested_order_qty r' = suggested_order_qty r \/ suggested_order_qty r' = 0) /\
  unit_cost r' = Some (catalog_cost products (pl_product_id r)) /\
  exists c, line_cost r' = Some c /\
    (c == Py.fmul (catalog_cost products (pl_product_id r))
            (Py.float_of_int (suggested_order_qty r')))%Q.

(** The fields of a line other than the three that [apply] adds. *)
Definition same_base_fields (r r' : PlanLine) : Prop :=
  pl_product_id r' = pl_product_id r /\
  pl_name r' = pl_name r /\
  avg_weekly_sales r' = avg_weekly_sales r /\
  current_stock r' = current_stock r /\
  forecast_next_week r' = forecast_next_week r /\
  suggested_order_qty r' = suggested_order_qty r /\
  reason r' = reason r.

(** What the dropping loop does to a line it visits. *)
Definition visit (r : PlanLine) : PlanLine :=
  if 0 <? suggested_order_qty r then BudgetAgent.drop_row r else r.

Arguments visit : simpl never.

(** The running excess, as the loop computes it, after it has visited the
    lines of [pre]: the line cost of each positive-quantity line is
    subtracted, in floats, in the order of the visit. *)
Fixpoint excess_after (excess : Q) (pre : list PlanLine) : Q :=
  match pre with
  | [] => excess
  | r :: pre' =>
      excess_after (if 0 <? suggested_order_qty r then Py.fsub excess (cost_of r) else excess)
                   pre'
  end.

(** A line of a plan that was within budget. *)
Definition within_budget_line (products : list Product) (r r' : PlanLine) : Prop :=
  same_base_fields r r' /\
  unit_cost r' = Some (catalog_cost products (pl_product_id r)) /\
  line_cost r' =
    Some (Py.fmul (catalog_cost products (pl_product_id r))
            (Py.float_of_int (suggested_order_qty r))) /\
  budget_note r' = Some "Within weekly budget"%string.




(** The slow-mover condition of a product: average weekly sales under one
    unit with stock on hand. *)
Definition slow_mover (state : State) (forecasts : gmap Z Q) (prod : Product) : Prop :=
  (ReplenishmentAgent.avg_sales_of forecasts (product_id prod) < 1)%Q /\
  0 < ReplenishmentAgent.current_stock_of state (product_id prod).

(** The line of a product: it carries the product's id and name. *)
Definition line_of (p : Product) (l : PlanLine) : Prop :=
  pl_product_id l = product_id p /\ pl_name l = name p.

(** Non-negativity of a line's quantity and cost. *)
Definition non_negative_line (l : PlanLine) : Prop :=
  0 <= suggested_order_qty l /\ exists c, line_cost l = Some c /\ (0 <= c)%Q.

(** [n] is the integer nearest to [x], the even one of the two when [x]
    lies half way. *)
Definition nearest_even (x : Q) (n : Z) : Prop :=
  (Qabs (x - inject_Z n) <= 1 # 2)%Q /\
  ((Qabs (x - inject_Z n) == 1 # 2)%Q -> Z.even n = true).

(** The target stock in the words of the specification:
    [max(minStock, forecast * safetyFactor)], clamped down to [maxStock];
    the product is the float product. *)
Definition required_stock_spec (safety_factor : Q) (min_stock max_stock : Z)
    (forecast : Q) : Q :=
  Qmin (Qmax (inject_Z min_stock) (Py.fmul forecast safety_factor)) (inject_Z max_stock).

(** The current stock of a product in the words of the specification: the
    quantity of its stock record, 0 when there is none. *)
Definition current_stock_spec (state : State) (pid : Z) : Z :=
  default 0 (qty_in_hand <$> stock_by_product state !! pid).

(** The unweighted arithmetic mean of a list of quantities. *)
Definition mean (qs : list Z) : Q :=
  (inject_Z (foldr Z.add 0%Z qs) / inject_Z (Z.of_nat (length qs)))%Q.

(** A number printed with one digit after the point: a minus sign when
    [x] is negative and none when it is positive, the integer part [i],
    the point, one character for the digit [d], with [i.d] within one
    twentieth of the magnitude of [x]. *)
Definition one_decimal (x : Q) (s : string) : Prop :=
  exists (sign : string) (i d : Z),
    ((x < 0)%Q -> sign = "-"%string) /\ ((0 < x)%Q -> sign = ""%string) /\
    0 <= i /\ 0 <= d <= 9 /\ String.length (Py.str d) = 1%nat /\
    s = (sign ++ Py.str i ++ "." ++ Py.str d)%string /\
    (Qabs (Qabs x - (inject_Z i + inject_Z d / 10)) <= 1 # 20)%Q.

(** The format spec [.2f], for comparison: two digits after the point. *)
Definition format_2f (x : Q) : string :=
  let n := Z.abs (Py.round (x * 100)) in
  let pad : string := if n mod 100 <? 10 then "0"%string else ""%string in
  ((if Py.Qlt_bool x 0 then "-" else "") ++ Py.str (n / 100) ++ "."
   ++ pad ++ Py.str (n mod 100))%string.

(** [occurs sub s]: [sub] is a substring of [s]. *)
Fixpoint occurs (sub s : string) : bool :=
  match s with
  | EmptyString => String.prefix sub s
  | String _ s' => String.prefix sub s || occurs sub s'
  end.

(** A rationale that reports forecast and target stock with two decimals. *)
Definition reports_two_decimals (forecast target : Q) (rationale : string) : Prop :=
  occurs (format_2f forecast) rationale = true /\
  occurs (format_2f target) rationale = true.

(** The sales rows that [forecast] reads for a product id. *)
Definition sales_rows_of (state : State) (pid : Z) : list SalesRow :=
  default [] (sales_by_product state !! pid).

(** The integers that binary64 holds exactly: up to [2^53] in magnitude. *)
Definition exact_int (n : Z) : Prop := Z.abs n <= 2 ^ 53.

(** Rounding to a multiple of [2^s], ties to the even multiple: what
    [Py.rnd_scaled] does once the shift is known. *)
Definition round_to_multiple (s : Z) (y : Q) : Z :=
  Py.round (y / inject_Z (2 ^ s)) * 2 ^ s.


(** A number that [float] converts without loss: a float, or an int of at
    most 53 bits. *)
Definition exact_num (a : Py.num) : Prop :=
  match a with
  | Py.Int n => exact_int n
  | Py.Float _ => True
  end.
(** * Properties *)

(** ** Comparisons and rounding *)

Lemma Qlt_bool_true a b : Py.Qlt_bool a b = true <-> (a < b)%Q.
Proof.
  unfold Py.Qlt_bool. rewrite negb_true_iff.
  split.
  - intros H. apply Qnot_le_lt. intros Hle.
    apply Qle_bool_iff in Hle. congruence.
  - intros H. destruct (Qle_bool b a) eqn:E; [|done].
    apply Qle_bool_iff in E. lra.
Qed.

Lemma Qlt_bool_false a b : Py.Qlt_bool a b = false <-> (b <= a)%Q.
Proof.
  unfold Py.Qlt_bool. rewrite negb_false_iff. apply Qle_bool_iff.
Qed.

Lemma Qle_bool_false a b : Qle_bool a b = false <-> (b < a)%Q.
Proof.
  split.
  - intros H. apply Qnot_le_lt. intros Hle. apply Qle_bool_iff in Hle. congruence.
  - intros H. destruct (Qle_bool a b) eqn:E; [|done].
    apply Qle_bool_iff in E. lra.
Qed.

#[global] Instance Qlt_bool_proper : Proper (Qeq ==> Qeq ==> eq) Py.Qlt_bool.
Proof.
  intros a a' Ha b b' Hb.
  destruct (Py.Qlt_bool a b) eqn:E, (Py.Qlt_bool a' b') eqn:E'; try done.
  - apply Qlt_bool_true in E. apply Qlt_bool_false in E'. lra.
  - apply Qlt_bool_false in E. apply Qlt_bool_true in E'. lra.
Qed.

(** The floor brackets its argument. *)
Lemma Qfloor_bounds x : (inject_Z (Qfloor x) <= x < inject_Z (Qfloor x) + 1)%Q.
Proof.
  split; [apply Qfloor_le|].
  pose proof (Qlt_floor x) as H.
  rewrite inject_Z_plus in H. exact H.
Qed.

(** [round] is within one half of its argument. *)
Lemma round_near x :
  (x - (1 # 2) <= inject_Z (Py.round x) <= x + (1 # 2))%Q.
Proof.
  unfold Py.round. cbv zeta. pose proof (Qfloor_bounds x) as [Hlo Hhi].
  destruct (Qcompare_spec (x - inject_Z (Qfloor x)) (1 # 2)) as [E|E|E].
  - destruct (Z.even (Qfloor x)); [lra|].
    rewrite inject_Z_plus. change (inject_Z 1) with 1%Q. lra.
  - lra.
  - rewrite inject_Z_plus. change (inject_Z 1) with 1%Q. lra.
Qed.

(** An integer bound on the argument is a bound on [round]. *)
Lemma round_le_int x n : (x <= inject_Z n)%Q -> Py.round x <= n.
Proof.
  intros Hx. unfold Py.round. cbv zeta. pose proof (Qfloor_bounds x) as [Hlo Hhi].
  assert (Hfn : Qfloor x <= n).
  { rewrite Zle_Qle. lra. }
  destruct (Qcompare_spec (x - inject_Z (Qfloor x)) (1 # 2)) as [E|E|E].
  - destruct (Z.even (Qfloor x)); [lia|].
    destruct (Z.eq_dec (Qfloor x) n) as [Heq|]; [exfalso; rewrite Heq in E; lra|lia].
  - lia.
  - destruct (Z.eq_dec (Qfloor x) n) as [Heq|]; [exfalso; rewrite Heq in E; lra|lia].
Qed.

Lemma round_ge_int x n : (inject_Z n <= x)%Q -> n <= Py.round x.
Proof.
  intros Hx. unfold Py.round. cbv zeta. pose proof (Qfloor_bounds x) as [Hlo Hhi].
  assert (Hfn : n <= Qfloor x).
  { apply Z.lt_succ_r. rewrite Zlt_Qlt. unfold Z.succ. rewrite inject_Z_plus.
    change (inject_Z 1) with 1%Q. lra. }
  destruct (Qcompare_spec (x - inject_Z (Qfloor x)) (1 # 2)) as [E|E|E].
  - destruct (Z.even (Qfloor x)); lia.
  - lia.
  - lia.
Qed.

#[global] Instance round_proper : Proper (Qeq ==> eq) Py.round.
Proof.
  intros x y Hxy. unfold Py.round. cbv zeta.
  rewrite (Qfloor_comp _ _ Hxy).
  assert (H : (x - inject_Z (Qfloor y) ?= 1 # 2)%Q = (y - inject_Z (Qfloor y) ?= 1 # 2)%Q).
  { apply Qcompare_comp; [|reflexivity]. rewrite Hxy. reflexivity. }
  rewrite H. reflexivity.
Qed.

Lemma round_floor_bounds x : Qfloor x <= Py.round x <= Qfloor x + 1.
Proof.
  unfold Py.round. cbv zeta.
  destruct (x - inject_Z (Qfloor x) ?= 1 # 2)%Q; [|lia|lia].
  destruct (Z.even (Qfloor x)); lia.
Qed.

Lemma round_mono x y : (x <= y)%Q -> Py.round x <= Py.round y.
Proof.
  intros Hxy. pose proof (Qfloor_resp_le _ _ Hxy) as Hf.
  destruct (Z.eq_dec (Qfloor x) (Qfloor y)) as [Heq|Hne].
  - unfold Py.round. cbv zeta. rewrite Heq.
    destruct (Qcompare_spec (x - inject_Z (Qfloor y)) (1 # 2)) as [Ex|Ex|Ex];
      destruct (Qcompare_spec (y - inject_Z (Qfloor y)) (1 # 2)) as [Ey|Ey|Ey];
      try (exfalso; lra); try lia; destruct (Z.even (Qfloor y)); lia.
  - pose proof (round_floor_bounds x). pose proof (round_floor_bounds y). lia.
Qed.

Lemma round_int k : Py.round (inject_Z k) = k.
Proof.
  assert (Hle : Py.round (inject_Z k) <= k) by (apply round_le_int; lra).
  assert (Hge : k <= Py.round (inject_Z k)) by (apply round_ge_int; lra).
  lia.
Qed.

(** [Py.round] gives the nearest integer, the even one at a tie, and it
    is the only integer that does. *)
Lemma round_nearest_even x : nearest_even x (Py.round x).
Proof.
  unfold nearest_even. pose proof (round_near x) as [Hlo Hhi]. split.
  - apply Qabs_Qle_condition. split; lra.
  - unfold Py.round in *. cbv zeta in *.
    pose proof (Qfloor_bounds x) as [Hf1 Hf2].
    destruct (Qcompare_spec (x - inject_Z (Qfloor x)) (1 # 2)) as [E|E|E].
    + destruct (Z.even (Qfloor x)) eqn:Ev; [done|]. intros _.
      rewrite Z.even_add, Ev. done.
    + intros Habs. exfalso. rewrite Qabs_pos in Habs by lra. lra.
    + intros Habs. exfalso. rewrite inject_Z_plus in Habs.
      change (inject_Z 1) with 1%Q in Habs.
      rewrite Qabs_neg in Habs by lra. lra.
Qed.

Lemma nearest_even_unique x n1 n2 :
  nearest_even x n1 -> nearest_even x n2 -> n1 = n2.
Proof.
  intros [H1 E1] [H2 E2].
  apply Qabs_Qle_condition in H1 as [H1a H1b].
  apply Qabs_Qle_condition in H2 as [H2a H2b].
  assert (Hd : n1 <= n2 + 1 /\ n2 <= n1 + 1).
  { split; rewrite Zle_Qle, inject_Z_plus; change (inject_Z 1) with 1%Q; lra. }
  destruct (Z.eq_dec n1 n2) as [|Hne]; [done|]. exfalso.
  assert (Hcase : n1 = n2 + 1 \/ n2 = n1 + 1) by lia.
  destruct Hcase as [->| ->].
  - rewrite inject_Z_plus in *. change (inject_Z 1) with 1%Q in *.
    assert (Ha : (Qabs (x - (inject_Z n2 + 1)) == 1 # 2)%Q).
    { rewrite Qabs_neg by lra. lra. }
    assert (Hb : (Qabs (x - inject_Z n2) == 1 # 2)%Q).
    { rewrite Qabs_pos by lra. lra. }
    specialize (E1 Ha). specialize (E2 Hb).
    rewrite Z.even_add, E2 in E1. done.
  - rewrite inject_Z_plus in *. change (inject_Z 1) with 1%Q in *.
    assert (Ha : (Qabs (x - (inject_Z n1 + 1)) == 1 # 2)%Q).
    { rewrite Qabs_neg by lra. lra. }
    assert (Hb : (Qabs (x - inject_Z n1) == 1 # 2)%Q).
    { rewrite Qabs_pos by lra. lra. }
    specialize (E1 Hb). specialize (E2 Ha).
    rewrite Z.even_add, E1 in E2. done.
Qed.

Lemma round_opp x : Py.round (- x) = - Py.round x.
Proof.
  symmetry. apply (nearest_even_unique (- x)); [|apply round_nearest_even].
  destruct (round_nearest_even x) as [H E]. split.
  - rewrite inject_Z_opp.
    assert (Heq : (- x - - inject_Z (Py.round x) == - (x - inject_Z (Py.round x)))%Q) by lra.
    by rewrite Heq, Qabs_opp.
  - intros Habs. rewrite Z.even_opp. apply E.
    rewrite inject_Z_opp in Habs.
    assert (Heq : (- x - - inject_Z (Py.round x) == - (x - inject_Z (Py.round x)))%Q) by lra.
    by rewrite Heq, Qabs_opp in Habs.
Qed.

(** ** Binary64 rounding *)

Lemma pow2_pos s : 0 <= s -> 0 < 2 ^ s.
Proof. intros. by apply Z.pow_pos_nonneg. Qed.

Lemma pow2_divide a b : 0 <= a <= b -> (2 ^ a | 2 ^ b).
Proof.
  intros H. exists (2 ^ (b - a)). rewrite <- Z.pow_add_r by lia. f_equal. lia.
Qed.

Lemma inject_pow2_pos s : 0 <= s -> (0 < inject_Z (2 ^ s))%Q.
Proof.
  intros Hs. change 0%Q with (inject_Z 0). rewrite <- Zlt_Qlt. by apply pow2_pos.
Qed.

Lemma round_to_multiple_mono s y y' :
  0 <= s -> (y <= y')%Q -> round_to_multiple s y <= round_to_multiple s y'.
Proof.
  intros Hs Hy. unfold round_to_multiple.
  apply Z.mul_le_mono_nonneg_r; [pose proof (pow2_pos s Hs); lia|].
  apply round_mono. pose proof (inject_pow2_pos s Hs) as Hp.
  unfold Qdiv. apply Qmult_le_compat_r; [done|].
  apply Qlt_le_weak, Qinv_lt_0_compat. done.
Qed.

Lemma round_to_multiple_fix s k :
  0 <= s -> (2 ^ s | k) -> round_to_multiple s (inject_Z k) = k.
Proof.
  intros Hs [j ->]. unfold round_to_multiple.
  assert (Heq : (inject_Z (j * 2 ^ s) / inject_Z (2 ^ s) == inject_Z j)%Q).
  { rewrite inject_Z_mult. field. pose proof (inject_pow2_pos s Hs). lra. }
  by rewrite Heq, round_int.
Qed.

Lemma round_to_multiple_opp s y :
  0 <= s -> round_to_multiple s (- y) = - round_to_multiple s y.
Proof.
  intros Hs. unfold round_to_multiple.
  assert (Heq : (- y / inject_Z (2 ^ s) == - (y / inject_Z (2 ^ s)))%Q).
  { field. pose proof (inject_pow2_pos s Hs). lra. }
  rewrite Heq, round_opp. lia.
Qed.

Lemma shift_nonneg y : 0 <= Py.shift y.
Proof. unfold Py.shift. lia. Qed.

#[global] Instance shift_proper : Proper (Qeq ==> eq) Py.shift.
Proof.
  intros y y' H. unfold Py.shift.
  assert (Ha : (Qabs y == Qabs y')%Q) by (by rewrite H).
  by rewrite (Qfloor_comp _ _ Ha).
Qed.

Lemma shift_opp y : Py.shift (- y) = Py.shift y.
Proof. unfold Py.shift. by rewrite (Qfloor_comp _ _ (Qabs_opp y)). Qed.

Lemma shift_nonneg_arg y :
  (0 <= y)%Q -> Py.shift y = Z.max 0 (Z.log2 (Qfloor y) - 52).
Proof.
  intros H. unfold Py.shift. by rewrite (Qfloor_comp _ _ (Qabs_pos y H)).
Qed.

Lemma rnd_scaled_unfold y : Py.rnd_scaled y = round_to_multiple (Py.shift y) y.
Proof. reflexivity. Qed.

#[global] Instance rnd_scaled_proper : Proper (Qeq ==> eq) Py.rnd_scaled.
Proof.
  intros y y' H. rewrite !rnd_scaled_unfold, (shift_proper _ _ H).
  unfold round_to_multiple. by rewrite H.
Qed.

Lemma rnd_scaled_opp y : Py.rnd_scaled (- y) = - Py.rnd_scaled y.
Proof.
  rewrite !rnd_scaled_unfold, shift_opp.
  apply round_to_multiple_opp, shift_nonneg.
Qed.

Lemma Qfloor_nonneg y : (0 <= y)%Q -> 0 <= Qfloor y.
Proof.
  intros H. change 0 with (Qfloor 0). by apply Qfloor_resp_le.
Qed.

Lemma rnd_scaled_nonneg y : (0 <= y)%Q -> 0 <= Py.rnd_scaled y.
Proof.
  intros H. rewrite rnd_scaled_unfold.
  pose proof (round_to_multiple_mono _ _ _ (shift_nonneg y) H) as M.
  change 0%Q with (inject_Z 0) in M.
  rewrite round_to_multiple_fix in M;
    [done|apply shift_nonneg|apply Z.divide_0_r].
Qed.

(** A non-negative value lies below the power of two above its floor. *)
Lemma below_next_pow2 y :
  (0 <= y)%Q -> (y <= inject_Z (2 ^ (Z.log2 (Qfloor y) + 1)))%Q.
Proof.
  intros H. pose proof (Qfloor_nonneg y H) as Hm.
  pose proof (Qfloor_bounds y) as [_ Hhi].
  assert (Hlt : Qfloor y < 2 ^ (Z.log2 (Qfloor y) + 1)).
  { destruct (Z.eq_dec (Qfloor y) 0) as [->|Hne]; [done|].
    apply Z.log2_lt_pow2; lia. }
  assert (Hle : Qfloor y + 1 <= 2 ^ (Z.log2 (Qfloor y) + 1)) by lia.
  rewrite Zle_Qle, inject_Z_plus in Hle. change (inject_Z 1) with 1%Q in Hle. lra.
Qed.

Lemma rnd_scaled_mono_nonneg y y' :
  (0 <= y)%Q -> (y <= y')%Q -> Py.rnd_scaled y <= Py.rnd_scaled y'.
Proof.
  intros H0 Hy. rewrite !rnd_scaled_unfold.
  assert (H0' : (0 <= y')%Q) by lra.
  pose proof (Qfloor_nonneg y H0) as Hm.
  pose proof (Qfloor_resp_le _ _ Hy) as Hmm.
  pose proof (Z.log2_le_mono _ _ Hmm) as Hlog.
  pose proof (shift_nonneg_arg y H0) as Hs.
  pose proof (shift_nonneg_arg y' H0') as Hs'.
  destruct (Z.eq_dec (Py.shift y) (Py.shift y')) as [Heq|Hne].
  - rewrite Heq. apply round_to_multiple_mono; [apply shift_nonneg|done].
  - assert (Hlt : Py.shift y < Py.shift y') by lia.
    assert (HL : 53 <= Z.log2 (Qfloor y')) by lia.
    assert (Hpos : 0 < Qfloor y').
    { destruct (Z.eq_dec (Qfloor y') 0) as [E|E]; [rewrite E in HL; simpl in HL; lia|lia]. }
    set (B := 2 ^ Z.log2 (Qfloor y')).
    assert (HB' : B <= Qfloor y') by (apply Z.log2_spec; lia).
    assert (HyB : (y <= inject_Z B)%Q).
    { pose proof (below_next_pow2 y H0) as Hb.
      assert (Hpw : 2 ^ (Z.log2 (Qfloor y) + 1) <= B).
      { apply Z.pow_le_mono_r; lia. }
      rewrite Zle_Qle in Hpw. lra. }
    assert (HBy' : (inject_Z B <= y')%Q).
    { pose proof (Qfloor_bounds y') as [Hlo _]. rewrite Zle_Qle in HB'. lra. }
    pose proof (round_to_multiple_mono _ _ _ (shift_nonneg y) HyB) as M1.
    pose proof (round_to_multiple_mono _ _ _ (shift_nonneg y') HBy') as M2.
    rewrite round_to_multiple_fix in M1, M2;
      [lia|apply shift_nonneg| |apply shift_nonneg|].
    + apply pow2_divide. pose proof (shift_nonneg y'). lia.
    + apply pow2_divide. pose proof (shift_nonneg y). lia.
Qed.

Lemma rnd_scaled_mono y y' : (y <= y')%Q -> Py.rnd_scaled y <= Py.rnd_scaled y'.
Proof.
  intros Hy. destruct (Qlt_le_dec y 0) as [Hneg|Hpos].
  - destruct (Qlt_le_dec y' 0) as [Hneg'|Hpos'].
    + assert (H : Py.rnd_scaled (- y') <= Py.rnd_scaled (- y)).
      { apply rnd_scaled_mono_nonneg; lra. }
      rewrite !rnd_scaled_opp in H. lia.
    + assert (H : 0 <= Py.rnd_scaled (- y)) by (apply rnd_scaled_nonneg; lra).
      rewrite rnd_scaled_opp in H.
      pose proof (rnd_scaled_nonneg y' Hpos'). lia.
  - by apply rnd_scaled_mono_nonneg.
Qed.

Lemma rnd_scaled_exact k :
  (2 ^ Py.shift (inject_Z k) | k) -> Py.rnd_scaled (inject_Z k) = k.
Proof.
  intros H. rewrite rnd_scaled_unfold.
  apply round_to_multiple_fix; [apply shift_nonneg|done].
Qed.

Lemma shift_of_nat_int r :
  0 <= r -> Py.shift (inject_Z r) = Z.max 0 (Z.log2 r - 52).
Proof.
  intros Hr. rewrite shift_nonneg_arg.
  - by rewrite Qfloor_Z.
  - change 0%Q with (inject_Z 0). by rewrite <- Zle_Qle.
Qed.

Lemma rnd_scaled_idem_nonneg y :
  (0 <= y)%Q -> Py.rnd_scaled (inject_Z (Py.rnd_scaled y)) = Py.rnd_scaled y.
Proof.
  intros H0. apply rnd_scaled_exact.
  pose proof (rnd_scaled_nonneg y H0) as Hr.
  rewrite (shift_of_nat_int _ Hr).
  pose proof (Qfloor_nonneg y H0) as Hm.
  set (L := Z.log2 (Qfloor y)).
  assert (HL : 0 <= L) by apply Z.log2_nonneg.
  pose proof (shift_nonneg_arg y H0) as Hs. fold L in Hs.
  assert (Hdiv : (2 ^ Py.shift y | Py.rnd_scaled y)).
  { rewrite rnd_scaled_unfold. unfold round_to_multiple. apply Z.divide_factor_r. }
  assert (Hub : Py.rnd_scaled y <= 2 ^ (L + 1)).
  { rewrite rnd_scaled_unfold.
    pose proof (round_to_multiple_mono _ _ _ (shift_nonneg y)
                  (below_next_pow2 y H0)) as M.
    fold L in M. rewrite round_to_multiple_fix in M;
      [done|apply shift_nonneg|apply pow2_divide; lia]. }
  destruct (Z.eq_dec (Py.rnd_scaled y) 0) as [E0|E0].
  { rewrite E0. apply Z.divide_0_r. }
  destruct (Z.eq_dec (Py.rnd_scaled y) (2 ^ (L + 1))) as [E|E].
  - rewrite E, Z.log2_pow2 by lia. apply pow2_divide. lia.
  - assert (Hlog : Z.log2 (Py.rnd_scaled y) < L + 1).
    { apply Z.log2_lt_pow2; lia. }
    eapply Z.divide_trans; [|exact Hdiv].
    apply pow2_divide. lia.
Qed.

Lemma rnd_scaled_idem y :
  Py.rnd_scaled (inject_Z (Py.rnd_scaled y)) = Py.rnd_scaled y.
Proof.
  destruct (Qlt_le_dec y 0) as [Hneg|Hpos]; [|by apply rnd_scaled_idem_nonneg].
  assert (H : Py.rnd_scaled (inject_Z (Py.rnd_scaled (- y))) = Py.rnd_scaled (- y)).
  { apply rnd_scaled_idem_nonneg. lra. }
  rewrite rnd_scaled_opp, inject_Z_opp, rnd_scaled_opp in H. lia.
Qed.

Lemma scale_pos : (0 < inject_Z Py.scale)%Q.
Proof. apply inject_pow2_pos. lia. Qed.

Lemma rnd_unfold x :
  (Py.rnd x == inject_Z (Py.rnd_scaled (x * inject_Z Py.scale)) / inject_Z Py.scale)%Q.
Proof. unfold Py.rnd. apply Qred_correct. Qed.

#[global] Instance rnd_proper : Proper (Qeq ==> eq) Py.rnd.
Proof.
  intros x x' H. unfold Py.rnd.
  assert (Hs : (x * inject_Z Py.scale == x' * inject_Z Py.scale)%Q) by (by rewrite H).
  by rewrite (rnd_scaled_proper _ _ Hs).
Qed.

#[global] Instance rnd_proper_Qeq : Proper (Qeq ==> Qeq) Py.rnd.
Proof. intros x x' H. by rewrite (rnd_proper _ _ H). Qed.

(** Rounding is monotone. *)
Lemma rnd_mono x y : (x <= y)%Q -> (Py.rnd x <= Py.rnd y)%Q.
Proof.
  intros Hxy. rewrite !rnd_unfold. pose proof scale_pos as Hp.
  assert (Hs : (x * inject_Z Py.scale <= y * inject_Z Py.scale)%Q).
  { apply Qmult_le_compat_r; lra. }
  apply rnd_scaled_mono in Hs. rewrite Zle_Qle in Hs.
  unfold Qdiv. apply Qmult_le_compat_r; [done|].
  apply Qlt_le_weak, Qinv_lt_0_compat. done.
Qed.

(** A rounded value is a float: rounding it again changes nothing. *)
Lemma rnd_idem x : (Py.rnd (Py.rnd x) == Py.rnd x)%Q.
Proof.
  pose proof scale_pos as Hp.
  rewrite (rnd_unfold (Py.rnd x)).
  assert (Hs : (Py.rnd x * inject_Z Py.scale
                == inject_Z (Py.rnd_scaled (x * inject_Z Py.scale)))%Q).
  { rewrite rnd_unfold. field. lra. }
  rewrite (rnd_scaled_proper _ _ Hs), rnd_scaled_idem.
  symmetry. apply rnd_unfold.
Qed.

Lemma rnd_0 : (Py.rnd 0 == 0)%Q.
Proof. by vm_compute. Qed.

Lemma rnd_nonneg x : (0 <= x)%Q -> (0 <= Py.rnd x)%Q.
Proof. intros H. rewrite <- rnd_0. by apply rnd_mono. Qed.

Lemma rnd_nonpos x : (x <= 0)%Q -> (Py.rnd x <= 0)%Q.
Proof. intros H. rewrite <- rnd_0. by apply rnd_mono. Qed.

(** Integers of at most 53 bits are floats. *)
Lemma rnd_exact_int n : exact_int n -> (Py.rnd (inject_Z n) == inject_Z n)%Q.
Proof.
  unfold exact_int. intros Hn. pose proof scale_pos as Hp.
  destruct (Z.eq_dec (Z.abs n) (2 ^ 53)) as [Hedge|Hedge].
  { assert (Hc : n = 2 ^ 53 \/ n = - 2 ^ 53) by lia.
    destruct Hc as [->| ->]; by vm_compute. }
  rewrite rnd_unfold.
  assert (Hs : (inject_Z n * inject_Z Py.scale == inject_Z (n * Py.scale))%Q).
  { by rewrite inject_Z_mult. }
  rewrite (rnd_scaled_proper _ _ Hs).
  assert (Hex : Py.rnd_scaled (inject_Z (n * Py.scale)) = n * Py.scale).
  { destruct (Z.eq_dec n 0) as [->|Hn0]; [by vm_compute|].
    assert (Hsym : forall k, 0 < k -> k < 2 ^ 53 ->
               Py.rnd_scaled (inject_Z (k * Py.scale)) = k * Py.scale).
    { intros k Hk Hk53. apply rnd_scaled_exact.
      assert (Hks : 0 <= k * Py.scale) by (unfold Py.scale; lia).
      rewrite (shift_of_nat_int _ Hks). unfold Py.scale.
      rewrite Z.log2_mul_pow2 by lia.
      assert (Hlog : Z.log2 k < 53) by (apply Z.log2_lt_pow2; lia).
      apply Z.divide_mul_r. apply pow2_divide.
      pose proof (Z.log2_nonneg k). lia. }
    destruct (Z.lt_ge_cases 0 n) as [Hpos|Hneg].
    - apply Hsym; lia.
    - assert (H := Hsym (- n) ltac:(lia) ltac:(lia)).
      assert (He : (inject_Z (- n * Py.scale) == - inject_Z (n * Py.scale))%Q).
      { rewrite <- inject_Z_opp. by rewrite Z.mul_opp_l. }
      rewrite (rnd_scaled_proper _ _ He), rnd_scaled_opp in H. lia. }
  rewrite Hex, inject_Z_mult. field. lra.
Qed.

Lemma rnd_1 : (Py.rnd 1 == 1)%Q.
Proof. by vm_compute. Qed.

(** Rounding to two decimals does not cross an integer downwards. *)
Lemma round2_ge_one x : (1 <= x)%Q -> (1 <= Py.round2 x)%Q.
Proof.
  intros Hx. unfold Py.round2. rewrite <- rnd_1. apply rnd_mono.
  assert (H : 100 <= Py.round (x * 100)).
  { apply round_ge_int. change (inject_Z 100) with (100%Q). lra. }
  rewrite Zle_Qle in H. change (inject_Z 100) with (100%Q) in H.
  unfold Qdiv. change (/ 100)%Q with (1 # 100)%Q. lra.
Qed.

(** ** Float operations *)

Lemma float_of_int_0 : (Py.float_of_int 0 == 0)%Q.
Proof. by vm_compute. Qed.

Lemma float_of_int_nonneg n : 0 <= n -> (0 <= Py.float_of_int n)%Q.
Proof.
  intros H. apply rnd_nonneg. change 0%Q with (inject_Z 0). by rewrite <- Zle_Qle.
Qed.

Lemma float_of_int_mono n m : n <= m -> (Py.float_of_int n <= Py.float_of_int m)%Q.
Proof. intros H. apply rnd_mono. by rewrite <- Zle_Qle. Qed.

Lemma float_of_int_exact n : exact_int n -> (Py.float_of_int n == inject_Z n)%Q.
Proof. apply rnd_exact_int. Qed.

Lemma fmul_zero_r u : (Py.fmul u (Py.float_of_int 0) == 0)%Q.
Proof.
  unfold Py.fmul.
  assert (H : (u * Py.float_of_int 0 == 0)%Q) by (rewrite float_of_int_0; lra).
  rewrite (rnd_proper _ _ H). apply rnd_0.
Qed.

Lemma fmul_nonneg a b : (0 <= a)%Q -> (0 <= b)%Q -> (0 <= Py.fmul a b)%Q.
Proof. intros Ha Hb. apply rnd_nonneg. by apply Qmult_le_0_compat. Qed.

(** A float product is a float. *)
Lemma fmul_is_float a b : (Py.rnd (Py.fmul a b) == Py.fmul a b)%Q.
Proof. apply rnd_idem. Qed.

(** ** [sorted]: a stable ascending sort *)

Section SortedFacts.
Context {A : Type} (key : A -> Q).

Lemma insert_sorted_Permutation x l : Py.insert_sorted key x l ≡ₚ x :: l.
Proof.
  induction l as [|y l IH]; simpl; [done|].
  destruct (Py.Qlt_bool (key y) (key x)); [|done].
  rewrite IH. apply Permutation_swap.
Qed.

Lemma sorted_Permutation l : Py.sorted key l ≡ₚ l.
Proof.
  induction l as [|x l IH]; simpl; [done|].
  rewrite insert_sorted_Permutation. by rewrite IH.
Qed.





Lemma sorted_length l : length (Py.sorted key l) = length l.
Proof. apply Permutation_length, sorted_Permutation. Qed.

End SortedFacts.

(** ** The pricing loop and the total cost *)

Lemma priced_plan_has_cost products plan :
  Forall (fun r => is_Some (line_cost r)) (priced_plan products plan).
Proof.
  unfold priced_plan. apply Forall_forall. intros r Hr.
  apply list_elem_of_In, in_map_iff in Hr as (r0 & <- & _). simpl. eauto.
Qed.

(** [sum] over lines that carry a cost is the float sum, left to right. *)
Lemma sum_line_cost_spec acc l :
  Forall (fun r => is_Some (line_cost r)) l ->
  BudgetAgent.sum_line_cost acc l = Some (foldl Py.fadd acc (map cost_of l)).
Proof.
  intros H. revert acc. induction H as [|r l [c Hc] _ IH]; intros acc; simpl; [done|].
  rewrite Hc. simpl. rewrite IH. unfold cost_of at 2. by rewrite Hc.
Qed.

Lemma sum_priced_plan products plan :
  BudgetAgent.sum_line_cost 0 (priced_plan products plan)
  = Some (total_cost products plan).
Proof. apply sum_line_cost_spec, priced_plan_has_cost. Qed.

(** ** The dropping loop *)

Lemma visit_pos r : 0 < suggested_order_qty r -> visit r = BudgetAgent.drop_row r.
Proof. intros H. unfold visit. by rewrite (proj2 (Z.ltb_lt _ _) H). Qed.

Lemma visit_nonpos r : suggested_order_qty r <= 0 -> visit r = r.
Proof. intros H. unfold visit. by rewrite (proj2 (Z.ltb_ge _ _) H). Qed.

Lemma excess_after_pos e r pre :
  0 < suggested_order_qty r ->
  excess_after e (r :: pre) = excess_after (Py.fsub e (cost_of r)) pre.
Proof. intros H. cbn [excess_after]. by rewrite (proj2 (Z.ltb_lt _ _) H). Qed.

Lemma excess_after_nonpos e r pre :
  suggested_order_qty r <= 0 ->
  excess_after e (r :: pre) = excess_after e pre.
Proof. intros H. cbn [excess_after]. by rewrite (proj2 (Z.ltb_ge _ _) H). Qed.

(** The loop visits a prefix of the rows and leaves the rest alone; it
    stops at the first row where the running excess is no longer positive. *)
Lemma drop_loop_spec e rows :
  Forall (fun r => is_Some (line_cost r)) rows ->
  exists visited rest,
    rows = visited ++ rest /\
    BudgetAgent.drop_loop e rows = Some (map visit visited ++ rest) /\
    (rest = [] \/ (excess_after e visited <= 0)%Q) /\
    (forall pre post, visited = pre ++ post -> post <> [] -> (0 < excess_after e pre)%Q).
Proof.
  intros H. revert e. induction H as [|row rows [c Hc] _ IH]; intros e.
  - exists [], []. split_and!; auto.
    intros pre post Hp Hne. destruct pre, post; done.
  - cbn [BudgetAgent.drop_loop]. destruct (Qle_bool e 0) eqn:Ee.
    + exists [], (row :: rows). apply Qle_bool_iff in Ee.
      split_and!; auto.
      intros pre post Hp Hne. destruct pre, post; done.
    + apply Qle_bool_false in Ee.
      destruct (suggested_order_qty row <=? 0) eqn:Eq.
      * apply Z.leb_le in Eq.
        destruct (IH e) as (visited & rest & -> & Hloop & Hstop & Hpre).
        exists (row :: visited), rest. rewrite Hloop.
        split_and!.
        { done. }
        { cbn [map app mbind option_bind]. by rewrite visit_nonpos. }
        { by rewrite excess_after_nonpos. }
        intros pre post Hp Hne. destruct pre as [|r pre]; [exact Ee|].
        injection Hp as <- Hp. rewrite excess_after_nonpos by done. by eapply Hpre.
      * apply Z.leb_gt in Eq. rewrite Hc.
        assert (Hcost : cost_of row = c) by (unfold cost_of; by rewrite Hc).
        destruct (IH (Py.fsub e c)) as (visited & rest & -> & Hloop & Hstop & Hpre).
        exists (row :: visited), rest. cbn [mbind option_bind]. rewrite Hloop.
        split_and!.
        { done. }
        { cbn [map app mbind option_bind]. by rewrite visit_pos. }
        { by rewrite excess_after_pos, Hcost. }
        intros pre post Hp Hne. destruct pre as [|r pre]; [exact Ee|].
        injection Hp as <- Hp. rewrite excess_after_pos, Hcost by done. by eapply Hpre.
Qed.

Lemma stamp_kept_cost r : cost_of (BudgetAgent.stamp_kept r) = cost_of r.
Proof. unfold BudgetAgent.stamp_kept. by destruct (budget_note r). Qed.

(** ** The two branches of [apply] *)

Lemma apply_within weekly_budget plan products :
  (total_cost products plan <= weekly_budget)%Q ->
  BudgetAgent.apply weekly_budget plan products
  = Some (map (BudgetAgent.set_budget_note BudgetAgent.within_note)
              (priced_plan products plan)).
Proof.
  intros Hle. unfold BudgetAgent.apply. fold (priced_plan products plan).
  rewrite sum_priced_plan. cbn [mbind option_bind].
  assert (Ht : Qle_bool (total_cost products plan) weekly_budget = true)
    by (by apply Qle_bool_iff).
  by rewrite Ht.
Qed.

Lemma apply_over weekly_budget plan products :
  (weekly_budget < total_cost products plan)%Q ->
  exists visited rest,
    Py.sorted avg_weekly_sales (priced_plan products plan) = visited ++ rest /\
    BudgetAgent.apply weekly_budget plan products
    = Some (map BudgetAgent.stamp_kept (map visit visited ++ rest)) /\
    (rest = [] \/
     (excess_after (Py.fsub (total_cost products plan) weekly_budget) visited <= 0)%Q) /\
    (forall pre post, visited = pre ++ post -> post <> [] ->
       (0 < excess_after (Py.fsub (total_cost products plan) weekly_budget) pre)%Q).
Proof.
  intros Hlt. unfold BudgetAgent.apply. fold (priced_plan products plan).
  rewrite sum_priced_plan. cbn [mbind option_bind].
  assert (Ht : Qle_bool (total_cost products plan) weekly_budget = false)
    by (by apply Qle_bool_false).
  rewrite Ht.
  assert (Hs : Forall (fun r => is_Some (line_cost r))
                 (Py.sorted avg_weekly_sales (priced_plan products plan))).
  { rewrite sorted_Permutation. apply priced_plan_has_cost. }
  destruct (drop_loop_spec (Py.fsub (total_cost products plan) weekly_budget) _ Hs)
    as (visited & rest & Hsplit & Hloop & Hstop & Hpre).
  exists visited, rest. split_and!; [done| |done|done].
  by rewrite Hloop.
Qed.

(** Every line that [apply] returns carries a cost. *)
Lemma visit_has_cost r : is_Some (line_cost r) -> is_Some (line_cost (visit r)).
Proof. unfold visit. destruct (0 <? suggested_order_qty r); simpl; eauto. Qed.

Lemma stamp_kept_has_cost r :
  is_Some (line_cost r) -> is_Some (line_cost (BudgetAgent.stamp_kept r)).
Proof. unfold BudgetAgent.stamp_kept. by destruct (budget_note r). Qed.

(** ** Line by line: what [apply] does *)

Lemma Forall2_map_r {A B C} (P : A -> C -> Prop) (f : B -> C) (l : list A) (k : list B) :
  Forall2 (fun x y => P x (f y)) l k -> Forall2 P l (map f k).
Proof. induction 1; simpl; by constructor. Qed.

Lemma Forall2_diag {A} (P : A -> A -> Prop) (l : list A) :
  (forall x, P x x) -> Forall2 P l l.
Proof. intros H. induction l; by constructor. Qed.



Lemma price_then_within products r :
  within_budget_line products r
    (BudgetAgent.set_budget_note BudgetAgent.within_note
       (BudgetAgent.price_row (BudgetAgent.price_index products) r)).
Proof. unfold within_budget_line, same_base_fields. simpl. by split_and!. Qed.

Lemma within_budget_line_step products r r' :
  within_budget_line products r r' -> budget_step products r r'.
Proof.
  intros ((?&?&?&?&?&Hq&?)&?&?&?). unfold budget_step.
  split_and!; auto. eexists. split; [done|]. by rewrite Hq.
Qed.

Lemma price_then_walk_step products r r' :
  r' = BudgetAgent.stamp_kept (visit (BudgetAgent.price_row (BudgetAgent.price_index products) r))
  \/ r' = BudgetAgent.stamp_kept (BudgetAgent.price_row (BudgetAgent.price_index products) r) ->
  budget_step products r r'.
Proof.
  assert (Hkept : budget_step products r
            (BudgetAgent.stamp_kept (BudgetAgent.price_row (BudgetAgent.price_index products) r))).
  { unfold budget_step, BudgetAgent.stamp_kept. simpl.
    destruct (budget_note r); simpl; split_and!; auto; by eexists. }
  intros [->| ->]; [|done].
  unfold visit. simpl. destruct (0 <? suggested_order_qty r); [|done].
  unfold budget_step. simpl. split_and!; auto.
  exists 0%Q. split; [done|]. by rewrite fmul_zero_r.
Qed.

(** [apply] always returns: it permutes the plan and updates each line
    by a [budget_step]. *)
Lemma apply_steps weekly_budget plan products :
  exists out plan',
    BudgetAgent.apply weekly_budget plan products = Some out /\
    plan' ≡ₚ plan /\
    Forall2 (budget_step products) plan' out.
Proof.
  destruct (Qlt_le_dec weekly_budget (total_cost products plan))
    as [Hover|Hwithin].
  - destruct (apply_over _ _ _ Hover) as (visited & rest & Hsplit & Happly & _).
    pose proof (sorted_Permutation avg_weekly_sales (priced_plan products plan)) as Hperm.
    rewrite Hsplit in Hperm. unfold priced_plan in Hperm.
    apply Permutation_map_inv in Hperm as (plan' & Heq & Hperm').
    eexists _, plan'. split_and!; [exact Happly|by symmetry|].
    apply Forall2_map_r.
    symmetry in Heq. apply map_eq_app in Heq as (pv & pr & -> & <- & <-).
    rewrite map_map. apply Forall2_app.
    + apply Forall2_map_r, Forall2_diag. intros r. apply price_then_walk_step. by left.
    + apply Forall2_map_r, Forall2_diag. intros r. apply price_then_walk_step. by right.
  - eexists _, plan. split_and!; [by apply apply_within|done|].
    unfold priced_plan. rewrite map_map.
    apply Forall2_map_r, Forall2_diag. intros r.
    apply within_budget_line_step, price_then_within.
Qed.

(** ** The required stock *)

(** The value of [max(a, b)] and of the cap. *)
Lemma max_value a b : (Py.value (Py.max a b) == Qmax (Py.value a) (Py.value b))%Q.
Proof.
  unfold Py.max, Py.num_lt. destruct (Py.Qlt_bool _ _) eqn:E.
  - apply Qlt_bool_true in E. rewrite Q.max_r by lra. reflexivity.
  - apply Qlt_bool_false in E. rewrite Q.max_l by lra. reflexivity.
Qed.

Lemma required_stock_value safety_factor mn mx forecast :
  (Py.value (ReplenishmentAgent.required_stock safety_factor mn mx forecast)
   == required_stock_spec safety_factor mn mx forecast)%Q.
Proof.
  unfold ReplenishmentAgent.required_stock, required_stock_spec. cbv zeta.
  pose proof (max_value (Py.Int mn) (Py.Float (Py.fmul forecast safety_factor))) as Hm.
  cbn [Py.value] in Hm. unfold Py.num_lt at 1.
  destruct (Py.Qlt_bool _ _) eqn:E.
  - apply Qlt_bool_true in E. cbn [Py.value] in E |- *. rewrite Hm in E.
    rewrite Q.min_r by lra. reflexivity.
  - apply Qlt_bool_false in E. cbn [Py.value] in E. rewrite Hm.
    rewrite Hm in E. rewrite Q.min_l by lra. reflexivity.
Qed.

(** The required stock is the int [max_stock], the int [min_stock] or the
    float product. *)
Lemma required_stock_cases safety_factor mn mx forecast :
  let required := ReplenishmentAgent.required_stock safety_factor mn mx forecast in
  required = Py.Int mx \/ required = Py.Int mn
  \/ required = Py.Float (Py.fmul forecast safety_factor).
Proof.
  unfold ReplenishmentAgent.required_stock, Py.max. cbv zeta.
  destruct (Py.num_lt (Py.Int mx) _); [by left|].
  destruct (Py.num_lt (Py.Int mn) _); auto.
Qed.

Lemma required_stock_capped safety_factor mn mx forecast :
  (Py.value (ReplenishmentAgent.required_stock safety_factor mn mx forecast)
   <= inject_Z mx)%Q.
Proof.
  rewrite required_stock_value. unfold required_stock_spec. apply Q.le_min_r.
Qed.

(** A required stock that is a float is one: rounding leaves it alone. *)
Lemma required_stock_is_float safety_factor mn mx forecast x :
  ReplenishmentAgent.required_stock safety_factor mn mx forecast = Py.Float x ->
  (Py.rnd x == x)%Q.
Proof.
  intros H.
  destruct (required_stock_cases safety_factor mn mx forecast) as [E|[E|E]];
    rewrite E in H; try discriminate.
  injection H as <-. apply fmul_is_float.
Qed.

(** The difference to the stock, rounded: it falls when the stock grows
    and is at most the difference of the values when the stock is not
    negative. *)
Lemma round_sub_int_antitone a c c' :
  c <= c' -> Py.round_num (Py.sub_int a c') <= Py.round_num (Py.sub_int a c).
Proof.
  intros Hc. destruct a as [n|x]; cbn [Py.sub_int Py.round_num]; [lia|].
  apply round_mono, rnd_mono.
  pose proof (float_of_int_mono c c' Hc). lra.
Qed.

Lemma round_sub_int_le a c m :
  (Py.rnd (Py.value a) == Py.value a)%Q \/ (exists n, a = Py.Int n) ->
  (Py.value a <= inject_Z m)%Q -> 0 <= c ->
  Py.round_num (Py.sub_int a c) <= m.
Proof.
  intros Hfl Ha Hc. destruct a as [n|x]; cbn [Py.sub_int Py.round_num Py.value] in *.
  - rewrite <- Zle_Qle in Ha. lia.
  - destruct Hfl as [Hfl|[n Hn]]; [|done].
    apply round_le_int. unfold Py.fsub.
    pose proof (float_of_int_nonneg c Hc) as Hc'.
    assert (Hle : (Py.rnd (x - Py.float_of_int c) <= Py.rnd x)%Q)
      by (apply rnd_mono; lra).
    lra.
Qed.

(** ** The lines that [build_plan] appends *)

(** The three pieces of the rationale, joined. *)
Lemma rationale_text (avg_text stock_text target_text : string) :
  ("Avg sales ≈ " ++ avg_text ++ "/week, "
   ++ "current stock = " ++ stock_text ++ ", "
   ++ "target stock ≈ " ++ target_text ++ ".")%string
  = ("Avg sales ≈ " ++ avg_text ++ "/week, current stock = " ++ stock_text
     ++ ", target stock ≈ " ++ target_text ++ ".")%string.
Proof. reflexivity. Qed.

Section BuildLine.
Context (safety_factor : Q) (state : State) (forecasts : gmap Z Q) (prod : Product).

Local Abbreviation line := (ReplenishmentAgent.build_line safety_factor state forecasts prod).
Local Abbreviation avg_sales :=
  (ReplenishmentAgent.avg_sales_of forecasts (product_id prod)).
Local Abbreviation stock :=
  (ReplenishmentAgent.current_stock_of state (product_id prod)).
Local Abbreviation required :=
  (ReplenishmentAgent.required_stock safety_factor (default 0 (min_stock prod))
     (default 100 (max_stock prod)) avg_sales).

Lemma build_line_id : pl_product_id line = product_id prod.
Proof.
  unfold ReplenishmentAgent.build_line.
  by destruct (Py.Qlt_bool _ 1 && (0 <? _)).
Qed.

Lemma build_line_name : pl_name line = name prod.
Proof.
  unfold ReplenishmentAgent.build_line.
  by destruct (Py.Qlt_bool _ 1 && (0 <? _)).
Qed.

Lemma build_line_avg : avg_weekly_sales line = Py.round2 avg_sales.
Proof.
  unfold ReplenishmentAgent.build_line.
  by destruct (Py.Qlt_bool _ 1 && (0 <? _)).
Qed.

Lemma build_line_forecast : forecast_next_week line = Py.round2 avg_sales.
Proof.
  unfold ReplenishmentAgent.build_line.
  by destruct (Py.Qlt_bool _ 1 && (0 <? _)).
Qed.

Lemma build_line_stock : current_stock line = stock.
Proof.
  unfold ReplenishmentAgent.build_line.
  by destruct (Py.Qlt_bool _ 1 && (0 <? _)).
Qed.

Lemma build_line_no_budget_fields :
  unit_cost line = None /\ line_cost line = None /\ budget_note line = None.
Proof.
  unfold ReplenishmentAgent.build_line.
  by destruct (Py.Qlt_bool _ 1 && (0 <? _)).
Qed.

Lemma build_line_qty :
  suggested_order_qty line =
    if Py.Qlt_bool avg_sales 1 && (0 <? stock) then 0
    else if Py.round_num (Py.sub_int required stock) <? 0 then 0
         else Py.round_num (Py.sub_int required stock).
Proof.
  unfold ReplenishmentAgent.build_line.
  by destruct (Py.Qlt_bool _ 1 && (0 <? _)).
Qed.

Lemma build_line_reason :
  reason line =
    if Py.Qlt_bool avg_sales 1 && (0 <? stock)
    then ReplenishmentAgent.slow_moving_reason
    else ("Avg sales ≈ " ++ Py.format_1f avg_sales ++ "/week, "
          ++ "current stock = " ++ Py.str stock ++ ", "
          ++ "target stock ≈ " ++ Py.format_1f_num required ++ ".")%string.
Proof.
  unfold ReplenishmentAgent.build_line.
  by destruct (Py.Qlt_bool _ 1 && (0 <? _)).
Qed.

Lemma slow_mover_cond :
  Py.Qlt_bool avg_sales 1 && (0 <? stock) = true <-> slow_mover state forecasts prod.
Proof.
  unfold slow_mover.
  rewrite andb_true_iff, Qlt_bool_true, Z.ltb_lt. done.
Qed.

Lemma build_line_qty_nonneg : 0 <= suggested_order_qty line.
Proof.
  rewrite build_line_qty.
  destruct (Py.Qlt_bool avg_sales 1 && (0 <? stock)); [done|].
  destruct (Py.round_num (Py.sub_int required stock) <? 0) eqn:E; lia.
Qed.

Lemma build_line_slow : slow_mover state forecasts prod -> suggested_order_qty line = 0.
Proof.
  intros H. apply slow_mover_cond in H. by rewrite build_line_qty, H.
Qed.


(** The slow-mover condition can be read off the line. *)
Lemma build_line_slow_fields :
  (avg_weekly_sales line < 1)%Q -> 0 < current_stock line ->
  slow_mover state forecasts prod.
Proof.
  rewrite build_line_avg, build_line_stock. intros Havg Hstock.
  split; [|done].
  destruct (Qlt_le_dec avg_sales 1) as [|Hge]; [done|].
  apply round2_ge_one in Hge. lra.
Qed.

End BuildLine.

Lemma current_stock_of_spec state pid :
  ReplenishmentAgent.current_stock_of state pid = current_stock_spec state pid.
Proof.
  unfold ReplenishmentAgent.current_stock_of, current_stock_spec.
  by destruct (stock_by_product state !! pid).
Qed.

Lemma build_plan_lines safety_factor state forecasts :
  Forall2 line_of (products state)
    (ReplenishmentAgent.build_plan safety_factor state forecasts).
Proof.
  unfold ReplenishmentAgent.build_plan.
  apply Forall2_map_r, Forall2_diag. intros p.
  split; [apply build_line_id|apply build_line_name].
Qed.

Lemma build_plan_well_formed safety_factor state forecasts :
  well_formed_plan (ReplenishmentAgent.build_plan safety_factor state forecasts).
Proof.
  unfold well_formed_plan, ReplenishmentAgent.build_plan.
  apply Forall_map, Forall_forall. intros p _. apply build_line_qty_nonneg.
Qed.

(** ** The pipeline, line by line *)

Lemma pipeline_steps safety_factor weekly_budget state forecasts :
  exists out prods',
    plan_pipeline safety_factor weekly_budget state forecasts = Some out /\
    prods' ≡ₚ products state /\
    Forall2 (fun p l =>
               budget_step (products state)
                 (ReplenishmentAgent.build_line safety_factor state forecasts p) l)
            prods' out.
Proof.
  unfold plan_pipeline.
  destruct (apply_steps weekly_budget
              (ReplenishmentAgent.build_plan safety_factor state forecasts)
              (products state)) as (out & plan' & Happly & Hperm & Hsteps).
  unfold ReplenishmentAgent.build_plan in Hperm.
  apply Permutation_map_inv in Hperm as (prods' & -> & Hperm').
  exists out, prods'. split_and!; [done|by symmetry|].
  clear -Hsteps. remember (map _ prods') as plan' eqn:Heq.
  revert prods' Heq. induction Hsteps as [|r l plan' out Hr _ IH]; intros prods' Heq.
  - destruct prods'; [constructor|done].
  - destruct prods' as [|p prods']; [done|]. injection Heq as -> ->.
    constructor; [done|]. by apply IH.
Qed.

(** ** The catalog's prices *)

Lemma price_index_lookup products pid c :
  BudgetAgent.price_index products !! pid = Some c ->
  exists p, p ∈ products /\ c = default 0%Q (cost_price p).
Proof.
  unfold BudgetAgent.price_index.
  assert (H : forall (acc : gmap Z Q),
             foldl (fun idx p => <[product_id p := default 0%Q (cost_price p)]> idx)
                   acc products !! pid = Some c ->
             acc !! pid = Some c \/
             exists p, p ∈ products /\ c = default 0%Q (cost_price p)).
  { induction products as [|p ps IH]; intros acc Hc; simpl in Hc; [by left|].
    destruct (IH _ Hc) as [Hacc|(q & Hq & ->)].
    - destruct (decide (product_id p = pid)) as [<-|Hne].
      + rewrite lookup_insert_eq in Hacc. injection Hacc as <-.
        right. exists p. split; [apply list_elem_of_here|done].
      + rewrite lookup_insert_ne in Hacc by done. by left.
    - right. exists q. split; [by apply list_elem_of_further|done]. }
  intros Hc. destruct (H ∅ Hc) as [Hempty|?]; [|done].
  by rewrite lookup_empty in Hempty.
Qed.

(** ** The forecast loop *)

Lemma foldl_add_foldr a l : foldl Z.add a l = a + foldr Z.add 0 l.
Proof.
  revert a. induction l as [|x l IH]; intros a; simpl; [lia|]. rewrite IH. lia.
Qed.

Lemma truediv_mean qs :
  qs <> [] ->
  Py.truediv (foldl Z.add 0 qs) (Z.of_nat (length qs)) = Some (Py.rnd (mean qs)).
Proof.
  intros Hne. unfold Py.truediv.
  destruct (Z.eqb_spec (Z.of_nat (length qs)) 0) as [E|_].
  { destruct qs; [done|]. cbn [length] in E. lia. }
  unfold mean. by rewrite foldl_add_foldr, Z.add_0_l.
Qed.

Lemma avg_sales_no_history max_weeks :
  ForecastAgent._avg_sales max_weeks [] = Some 0%Q.
Proof. done. Qed.

Lemma avg_sales_recent_mean max_weeks rows :
  1 <= max_weeks -> rows <> [] ->
  ForecastAgent._avg_sales max_weeks rows
  = Some (Py.rnd (mean (map qty_sold (take (Z.to_nat max_weeks) rows)))).
Proof.
  intros Hw Hrows. destruct rows as [|r rows]; [done|].
  unfold ForecastAgent._avg_sales, Py.slice_to.
  assert (Hpos : (0 <=? max_weeks) = true) by lia. rewrite Hpos.
  apply truediv_mean.
  destruct (Z.to_nat max_weeks) as [|k] eqn:Ek; [lia|]. done.
Qed.

Lemma forecast_loop_spec max_weeks state prods acc :
  Forall (fun p => is_Some (ForecastAgent._avg_sales max_weeks
                              (sales_rows_of state (product_id p)))) prods ->
  exists forecasts,
    ForecastAgent.forecast_loop max_weeks state prods acc = Some forecasts /\
    Forall (fun p => forecasts !! product_id p
                     = ForecastAgent._avg_sales max_weeks
                         (sales_rows_of state (product_id p))) prods /\
    forall pid, pid ∉ map product_id prods -> forecasts !! pid = acc !! pid.
Proof.
  intros H. revert acc. induction H as [|p prods [v Hv] _ IH]; intros acc.
  - exists acc. split_and!; [done|constructor|done].
  - cbn [ForecastAgent.forecast_loop]. fold (sales_rows_of state (product_id p)).
    rewrite Hv. cbn [mbind option_bind].
    destruct (IH (<[product_id p := v]> acc)) as (f & Hloop & Hin & Hout).
    exists f. split_and!; [done| |].
    + constructor; [|done].
      destruct (decide (product_id p ∈ map product_id prods)) as [Hmem|Hmem].
      * apply list_elem_of_In, in_map_iff in Hmem as (q & Hq & Hmem).
        apply list_elem_of_In in Hmem.
        rewrite Forall_forall in Hin. rewrite <- Hq. by apply Hin.
      * rewrite (Hout _ Hmem), lookup_insert_eq. done.
    + intros pid Hpid. cbn [map] in Hpid.
      apply not_elem_of_cons in Hpid as [Hne Hpid].
      rewrite (Hout _ Hpid), lookup_insert_ne; done.
Qed.

(** ** The format [.1f] *)

Lemma str_digit_length d : 0 <= d <= 9 -> String.length (Py.str d) = 1%nat.
Proof.
  intros H.
  assert (Hd : d = 0 \/ d = 1 \/ d = 2 \/ d = 3 \/ d = 4 \/ d = 5 \/ d = 6 \/ d = 7
               \/ d = 8 \/ d = 9) by lia.
  repeat (destruct Hd as [->|Hd]; [reflexivity|]). by subst.
Qed.

Lemma format_1f_one_decimal x : one_decimal x (Py.format_1f x).
Proof.
  unfold one_decimal, Py.format_1f.
  set (r := Py.round (x * 10)). set (n := Z.abs r).
  assert (Hn : 0 <= n) by apply Z.abs_nonneg.
  pose proof (Z.mod_pos_bound n 10 eq_refl) as Hmod.
  exists (if Py.Qlt_bool x 0 then "-"%string else ""%string), (n / 10), (n mod 10).
  split_and!.
  - intros Hx. apply Qlt_bool_true in Hx. by rewrite Hx.
  - intros Hx. assert (E : Py.Qlt_bool x 0 = false) by (apply Qlt_bool_false; lra).
    by rewrite E.
  - apply Z.div_pos; lia.
  - lia.
  - lia.
  - apply str_digit_length. lia.
  - reflexivity.
  - assert (Hsplit : (inject_Z n == 10 * inject_Z (n / 10) + inject_Z (n mod 10))%Q).
    { rewrite (Z.div_mod n 10) at 1 by lia.
      rewrite inject_Z_plus, inject_Z_mult. reflexivity. }
    pose proof (round_near (x * 10)) as [Hlo Hhi]. fold r in Hlo, Hhi.
    unfold Qdiv. change (/ 10)%Q with (1 # 10)%Q.
    destruct (Qlt_le_dec x 0) as [Hneg|Hpos].
    + assert (Hr : r <= 0).
      { apply round_le_int. change (inject_Z 0) with 0%Q. lra. }
      assert (Hnr : (inject_Z n == - inject_Z r)%Q).
      { unfold n. rewrite Z.abs_neq by done. by rewrite inject_Z_opp. }
      rewrite (Qabs_neg x) by lra.
      apply Qabs_Qle_condition. split; lra.
    + assert (Hr : 0 <= r).
      { apply round_ge_int. change (inject_Z 0) with 0%Q. lra. }
      assert (Hnr : (inject_Z n == inject_Z r)%Q).
      { unfold n. by rewrite Z.abs_eq. }
      rewrite (Qabs_pos x) by lra.
      apply Qabs_Qle_condition. split; lra.
Qed.


Lemma to_float_exact a : exact_num a -> (Py.to_float a == Py.value a)%Q.
Proof.
  destruct a as [n|x]; cbn [exact_num Py.to_float Py.value]; [|reflexivity].
  apply float_of_int_exact.
Qed.

(** ** The scenarios of the specification, evaluated *)

(** Proves a conjunction of closed equations and comparisons, one
    conjunct after the other, by evaluation. *)
Ltac evaluate_conjuncts :=
  repeat (split; [vm_compute; reflexivity|]); vm_compute; reflexivity.

(** Scenario 1: no history, no stock, bounds 10 and 100, cost 5. *)
Example scenario_no_history :
  exists l,
    run_agent_pipeline default_max_weeks default_safety_factor default_weekly_budget
      Examples.state_basic = Some [l] /\
    forecast_next_week l = 0%Q /\
    suggested_order_qty l = 10 /\
    line_cost l = Some 50%Q /\
    budget_note l = Some "Within weekly budget"%string.
Proof. eexists. split_and!; by vm_compute. Qed.

(** Scenario 2: average 0.5 with 3 in stock; the slow-mover rule forces 0. *)
Example scenario_slow_mover :
  exists l,
    run_agent_pipeline default_max_weeks default_safety_factor default_weekly_budget
      Examples.state_slow = Some [l] /\
    suggested_order_qty l = 0 /\
    reason l = ReplenishmentAgent.slow_moving_reason.
Proof. eexists. split_and!; by vm_compute. Qed.

(** One recorded week of 2 units averages to 2.0: the mean is over the
    records considered, not over the horizon. *)
Example forecast_single_week :
  ForecastAgent._avg_sales default_max_weeks [Examples.sale 1 2] = Some 2%Q.
Proof. by vm_compute. Qed.

(** Scenario 3, with orders of 12000 and 30000 against 25000: the line
    with the lower average is dropped and comes first in the result. *)
Example scenario_over_budget :
  exists l1 l2,
    run_agent_pipeline default_max_weeks default_safety_factor default_weekly_budget
      Examples.state_over = Some [l1; l2] /\
    pl_product_id l1 = 2 /\ suggested_order_qty l1 = 0 /\
    budget_note l1 = Some "Dropped due to budget limit"%string /\
    pl_product_id l2 = 1 /\ suggested_order_qty l2 = 12 /\
    budget_note l2 = Some "Kept in final order"%string.
Proof. eexists _, _. split_and!; by vm_compute. Qed.

(** ** The float arithmetic, evaluated *)

(** [0.1 + 0.2] is [0.30000000000000004], the float above [0.3]. *)
Example float_sum_tenths :
  Py.fadd (Examples.literal 1 10) (Examples.literal 2 10)
  = Examples.literal 30000000000000004 100000000000000000 /\
  (Examples.literal 3 10 < Py.fadd (Examples.literal 1 10) (Examples.literal 2 10))%Q.
Proof. split; by vm_compute. Qed.

(** [1.1 * 15] is [16.5] and rounds to 16; [1.1 * 55] is
    [60.50000000000001] and rounds to 61. *)
Example float_product_rounding :
  Py.fmul 15 (Examples.literal 11 10) = (33 # 2)%Q /\
  Py.round (Py.fmul 15 (Examples.literal 11 10)) = 16 /\
  ((121 # 2) < Py.fmul 55 (Examples.literal 11 10))%Q /\
  Py.round (Py.fmul 55 (Examples.literal 11 10)) = 61.
Proof. split_and!; by vm_compute. Qed.

(** [float(2^53 + 1)] is [2^53], and [.1f] prints it so. *)
Example float_of_large_int :
  Py.float_of_int 9007199254740993 = 9007199254740992%Q /\
  Py.format_1f_num (Py.Int 9007199254740993) = "9007199254740992.0"%string.
Proof. split; by vm_compute. Qed.

(** [round(0.125, 2)] is [0.12], [round(2.675, 2)] is [2.67]. *)
Example round2_ties :
  Py.round2 (1 # 8) = Examples.literal 12 100 /\
  Py.round2 (Examples.literal 2675 1000) = Examples.literal 267 100.
Proof. split; by vm_compute. Qed.

(** * The claims of the specification *)

(** ** C1: budget feasibility *)

(** C1.  The program does not keep the returned plan within the budget:
    its dropping loop stops on a running excess that it updates by float
    subtraction, and that excess can reach 0 while the cost that is left
    still exceeds the budget.  With the module-level agents and two
    products, one unit at 10000.0 without sales and 25 units at
    1000.0000000000001 with average sales 2, the total is 35000.0 and the
    excess 10000.0; dropping the first line brings the excess to 0.0, and
    the line that is kept costs 25000.000000000004, more than the budget
    of 25000.0. *)
Theorem budget_exceeded_by_rounding :
  (0 <= default_weekly_budget)%Q /\
  exists forecasts dropped kept total,
    ForecastAgent.forecast default_max_weeks Examples.state_rounding = Some forecasts /\
    BudgetAgent.apply default_weekly_budget
      (ReplenishmentAgent.build_plan default_safety_factor Examples.state_rounding forecasts)
      (products Examples.state_rounding) = Some [dropped; kept] /\
    run_agent_pipeline default_max_weeks default_safety_factor default_weekly_budget
      Examples.state_rounding = Some [dropped; kept] /\
    total_cost (products Examples.state_rounding)
      (ReplenishmentAgent.build_plan default_safety_factor Examples.state_rounding forecasts)
    = 35000%Q /\
    suggested_order_qty dropped = 0 /\
    suggested_order_qty kept = 25 /\
    BudgetAgent.sum_line_cost 0 [dropped; kept] = Some total /\
    (default_weekly_budget < total)%Q.
Proof.
  split; [by vm_compute|].
  eexists _, _, _, _. evaluate_conjuncts.
Qed.

(** ** C5: a plan within budget is only stamped *)



(** Three units at 0.1 and one at 0.15 against a budget of 0.45: the
    float total is 0.45000000000000007, over the budget, so the plan is
    not within budget and the first line is dropped. *)
Example float_total_just_over_budget :
  let products := [Examples.bare_product 1 (Examples.literal 1 10);
                   Examples.bare_product 2 (Examples.literal 15 100)] in
  let plan := [Examples.bare_line 1 1 3; Examples.bare_line 2 2 1] in
  (Examples.literal 45 100 < total_cost products plan)%Q /\
  exists l1 l2,
    BudgetAgent.apply (Examples.literal 45 100) plan products = Some [l1; l2] /\
    suggested_order_qty l1 = 0 /\
    budget_note l1 = Some "Dropped due to budget limit"%string /\
    suggested_order_qty l2 = 1 /\
    budget_note l2 = Some "Kept in final order"%string.
Proof. cbv zeta. split; [by vm_compute|]. eexists _, _. evaluate_conjuncts. Qed.

(** ** C6: a plan over budget is sorted and walked *)



(** One unit at 0.2 and 25 units at 1000.0 against the default budget:
    the total is 25000.2 and the float excess a little more than 0.2, so
    after the first line is dropped the running excess is still positive
    (about 7.3e-13) and the second line is dropped too. *)
Example float_excess_drops_both :
  let products := [Examples.bare_product 1 (Examples.literal 2 10);
                   Examples.bare_product 2 1000] in
  let plan := [Examples.bare_line 1 1 1; Examples.bare_line 2 2 25] in
  let excess := Py.fsub (total_cost products plan) default_weekly_budget in
  (default_weekly_budget < total_cost products plan)%Q /\
  (0 < excess_after excess [BudgetAgent.price_row (BudgetAgent.price_index products)
                              (Examples.bare_line 1 1 1)])%Q /\
  exists l1 l2,
    BudgetAgent.apply default_weekly_budget plan products = Some [l1; l2] /\
    suggested_order_qty l1 = 0 /\ suggested_order_qty l2 = 0.
Proof.
  cbv zeta. split; [by vm_compute|]. split; [by vm_compute|].
  eexists _, _. evaluate_conjuncts.
Qed.

(** ** C2: slow movers are not ordered *)

(** C2.  The pipeline returns a plan whose lines match the products of
    the snapshot one to one, and the line of every product whose average
    weekly sales is under 1 while its current stock is positive has a
    suggested order quantity of 0.  The same can be read off the final plan
    alone: a line whose [avg_weekly_sales] is under 1 and whose
    [current_stock] is positive has quantity 0. *)
Theorem slow_movers_not_ordered (safety_factor weekly_budget : Q) (state : State)
    (forecasts : gmap Z Q) :
  exists out prods',
    plan_pipeline safety_factor weekly_budget state forecasts = Some out /\
    prods' ≡ₚ products state /\
    Forall2 (fun p l =>
               line_of p l /\
               (slow_mover state forecasts p -> suggested_order_qty l = 0))
            prods' out /\
    Forall (fun l => (avg_weekly_sales l < 1)%Q -> 0 < current_stock l ->
                     suggested_order_qty l = 0) out.
Proof.
  destruct (pipeline_steps safety_factor weekly_budget state forecasts)
    as (out & prods' & Hrun & Hperm & Hsteps).
  exists out, prods'. split_and!; [done|done| |].
  - eapply Forall2_impl; [exact Hsteps|].
    intros p l (Hid & Hname & _ & _ & _ & _ & Hqty & _). split.
    + split; [by rewrite Hid, build_line_id|by rewrite Hname, build_line_name].
    + intros Hslow. destruct Hqty as [Hq|Hq]; [|done].
      rewrite Hq. by apply build_line_slow.
  - eapply Forall2_Forall_r; [exact Hsteps|].
    apply Forall_forall. intros p _ l (_ & _ & Havg & Hstock & _ & _ & Hqty & _) Hlt Hpos.
    destruct Hqty as [Hq|Hq]; [|done].
    rewrite Hq. apply build_line_slow.
    rewrite Havg in Hlt. rewrite Hstock in Hpos.
    by eapply build_line_slow_fields.
Qed.

(** ** C8: one line per active product *)

(** C8.  [build_plan] emits one line per product of the snapshot, in the
    snapshot's order; the pipeline returns a plan whose lines match the
    products one to one, up to the order of the returned sequence. *)
Theorem one_line_per_product (safety_factor weekly_budget : Q) (state : State)
    (forecasts : gmap Z Q) :
  Forall2 line_of (products state)
    (ReplenishmentAgent.build_plan safety_factor state forecasts) /\
  exists out prods',
    plan_pipeline safety_factor weekly_budget state forecasts = Some out /\
    prods' ≡ₚ products state /\
    Forall2 line_of prods' out.
Proof.
  split; [apply build_plan_lines|].
  destruct (pipeline_steps safety_factor weekly_budget state forecasts)
    as (out & prods' & Hrun & Hperm & Hsteps).
  exists out, prods'. split_and!; [done|done|].
  eapply Forall2_impl; [exact Hsteps|].
  intros p l (Hid & Hname & _).
  split; [by rewrite Hid, build_line_id|by rewrite Hname, build_line_name].
Qed.

(** ** C10: the order never exceeds the maximum stock *)

(** C10.  For a product with [max_stock >= min_stock >= 0] and a
    non-negative current stock, the quantity that [build_plan] suggests is
    at most [max_stock]. *)
Theorem order_qty_at_most_max_stock (safety_factor : Q) (state : State)
    (forecasts : gmap Z Q) (prod : Product) :
  0 <= default 0 (min_stock prod) ->
  default 0 (min_stock prod) <= default 100 (max_stock prod) ->
  0 <= ReplenishmentAgent.current_stock_of state (product_id prod) ->
  suggested_order_qty (ReplenishmentAgent.build_line safety_factor state forecasts prod)
  <= default 100 (max_stock prod).
Proof.
  intros Hmin Hmax Hstock. rewrite build_line_qty.
  destruct (Py.Qlt_bool _ 1 && _); [lia|].
  destruct (_ <? 0); [lia|].
  apply round_sub_int_le; [|apply required_stock_capped|done].
  destruct (ReplenishmentAgent.required_stock _ _ _ _) as [n|x] eqn:E.
  - right. by exists n.
  - left. cbn [Py.value]. by eapply required_stock_is_float.
Qed.

(** The product of scenario 1: bounds 10 and 100, no stock. *)
Lemma order_qty_at_most_max_stock_witness :
  0 <= default 0 (min_stock Examples.prod_basic) /\
  default 0 (min_stock Examples.prod_basic) <= default 100 (max_stock Examples.prod_basic) /\
  0 <= ReplenishmentAgent.current_stock_of Examples.state_basic
         (product_id Examples.prod_basic) /\
  suggested_order_qty
    (ReplenishmentAgent.build_line default_safety_factor Examples.state_basic ∅
       Examples.prod_basic)
  <= default 100 (max_stock Examples.prod_basic).
Proof.
  assert (H1 : 0 <= default 0 (min_stock Examples.prod_basic))
    by (vm_compute; discriminate).
  assert (H2 : default 0 (min_stock Examples.prod_basic)
               <= default 100 (max_stock Examples.prod_basic))
    by (vm_compute; discriminate).
  assert (H3 : 0 <= ReplenishmentAgent.current_stock_of Examples.state_basic
                      (product_id Examples.prod_basic))
    by (vm_compute; discriminate).
  split; [exact H1|]. split; [exact H2|]. split; [exact H3|].
  exact (order_qty_at_most_max_stock default_safety_factor Examples.state_basic ∅
           Examples.prod_basic H1 H2 H3).
Defined.

(** ** C3: the order quantity *)


(** With a safety factor of 1.1, no stock and the default bounds, the
    forecasts 15 and 55 give the orders 16 and 61: the float products are
    16.5, a tie that goes to the even 16, and 60.50000000000001. *)
Example order_qty_float_product :
  let prod pid := {| product_id := pid; name := ""; category := "";
                     cost_price := None; selling_price := 0%Q;
                     min_stock := Some 0; max_stock := Some 100;
                     lead_time_days := 3; active := 1 |} in
  let state := {| products := [prod 1; prod 2]; stock_by_product := ∅;
                  sales_by_product := ∅ |} in
  map suggested_order_qty
    (ReplenishmentAgent.build_plan (Examples.literal 11 10) state
       ({[ 1 := 15%Q; 2 := 55%Q ]} : gmap Z Q))
  = [16; 61].
Proof. by vm_compute. Qed.

(** ** C9: non-negativity of quantities and costs *)

(** C9, as stated, fails: with the module-level agents, a catalog entry
    whose cost price is -5 and whose minimum stock is 10 yields a final
    line with quantity 10 and line cost -50. *)
Lemma negative_cost_price_gives_negative_line_cost :
  exists l,
    run_agent_pipeline default_max_weeks default_safety_factor default_weekly_budget
      Examples.state_negative_cost = Some [l] /\
    suggested_order_qty l = 10 /\
    line_cost l = Some (-50)%Q /\
    ~ Forall non_negative_line [l].
Proof.
  eexists. split_and!; [vm_compute; reflexivity|reflexivity|reflexivity|].
  intros H. apply Forall_cons in H as [[_ (c & Hc & Hle)] _].
  simpl in Hc. injection Hc as <-. revert Hle. by vm_compute.
Qed.

(** C9, amended.  Every line of the final plan has a non-negative
    suggested order quantity, and a non-negative line cost whenever the
    line's own unit cost is not negative. *)
Theorem final_plan_non_negative (safety_factor weekly_budget : Q) (state : State)
    (forecasts : gmap Z Q) :
  exists out,
    plan_pipeline safety_factor weekly_budget state forecasts = Some out /\
    Forall (fun l =>
              0 <= suggested_order_qty l /\
              exists u c, unit_cost l = Some u /\ line_cost l = Some c /\
                          ((0 <= u)%Q -> (0 <= c)%Q)) out.
Proof.
  destruct (pipeline_steps safety_factor weekly_budget state forecasts)
    as (out & prods' & Hrun & Hperm & Hsteps).
  exists out. split; [done|].
  eapply Forall2_Forall_r; [exact Hsteps|].
  apply Forall_forall. intros p _ l (Hid & _ & _ & _ & _ & _ & Hq & Hu & c & Hc & Heq).
  assert (Hqty : 0 <= suggested_order_qty l).
  { destruct Hq as [Hq|Hq]; rewrite Hq; [apply build_line_qty_nonneg|done]. }
  split; [done|].
  eexists _, c. split_and!; [exact Hu|exact Hc|].
  intros Hnonneg. rewrite Heq.
  apply fmul_nonneg; [done|by apply float_of_int_nonneg].
Qed.

(** ** C4: the forecast *)

(** C4.  [ForecastAgent.forecast] never raises on absent history: when no
    product has sales records it returns 0.0 for every product, whatever
    the horizon.  With a horizon of at least one week it returns, for
    every product, 0.0 when the product has no sales records and otherwise
    the unweighted mean of [qty_sold] over the first [max_weeks] records
    (the most recent ones, up to [max_weeks] of them), as the float
    nearest to it. *)
Theorem forecast_recent_mean (max_weeks : Z) (state : State) :
  (Forall (fun p => sales_rows_of state (product_id p) = []) (products state) ->
   exists forecasts,
     ForecastAgent.forecast max_weeks state = Some forecasts /\
     Forall (fun p => forecasts !! product_id p = Some 0%Q) (products state)) /\
  (1 <= max_weeks ->
   exists forecasts,
     ForecastAgent.forecast max_weeks state = Some forecasts /\
     Forall (fun p =>
               forecasts !! product_id p =
                 Some (match sales_rows_of state (product_id p) with
                       | [] => 0%Q
                       | rows =>
                           Py.rnd (mean (map qty_sold (take (Z.to_nat max_weeks) rows)))
                       end)) (products state)).
Proof.
  split.
  - intros Hnone.
    destruct (forecast_loop_spec max_weeks state (products state) ∅)
      as (f & Hloop & Hin & _).
    { eapply Forall_impl; [exact Hnone|]. intros p ->. by eexists. }
    exists f. split; [done|].
    rewrite Forall_forall in Hin, Hnone. apply Forall_forall. intros p Hp.
    by rewrite (Hin p Hp), (Hnone p Hp).
  - intros Hw.
    assert (Havg : forall rows,
               ForecastAgent._avg_sales max_weeks rows
               = Some (match rows with
                       | [] => 0%Q
                       | _ => Py.rnd (mean (map qty_sold (take (Z.to_nat max_weeks) rows)))
                       end)).
    { intros [|r rows]; [done|]. by apply avg_sales_recent_mean. }
    destruct (forecast_loop_spec max_weeks state (products state) ∅)
      as (f & Hloop & Hin & _).
    { apply Forall_forall. intros p _. rewrite Havg. by eexists. }
    exists f. split; [done|].
    eapply Forall_impl; [exact Hin|]. intros p ->. rewrite Havg.
    by destruct (sales_rows_of state (product_id p)).
Qed.

(** The horizon of the module-level agent. *)
Lemma forecast_recent_mean_witness :
  1 <= default_max_weeks /\
  exists forecasts,
    ForecastAgent.forecast default_max_weeks Examples.state_selling = Some forecasts /\
    Forall (fun p =>
              forecasts !! product_id p =
                Some (match sales_rows_of Examples.state_selling (product_id p) with
                      | [] => 0%Q
                      | rows =>
                          Py.rnd (mean (map qty_sold
                                          (take (Z.to_nat default_max_weeks) rows)))
                      end)) (products Examples.state_selling).
Proof.
  assert (H : 1 <= default_max_weeks) by (vm_compute; discriminate).
  split; [exact H|].
  exact (proj2 (forecast_recent_mean default_max_weeks Examples.state_selling) H).
Defined.

(** With a horizon of zero weeks and a product that has sales records the
    division of [_avg_sales] is by zero. *)
Example forecast_zero_horizon_raises :
  ForecastAgent.forecast 0 Examples.state_selling = None.
Proof. reflexivity. Qed.

(** ** C7: the rationale text *)

(** C7, as stated, fails: for the product of [Examples.state_selling]
    (average sales 2.25, stock 3, target stock 10) the rationale prints
    "2.2" and "10.0"; the two-decimal renderings "2.25" and "10.00" do
    not occur in it. *)
Lemma rationale_is_not_two_decimal :
  exists forecasts,
    ForecastAgent.forecast default_max_weeks Examples.state_selling = Some forecasts /\
    let line := ReplenishmentAgent.build_line default_safety_factor
                  Examples.state_selling forecasts Examples.prod_basic in
    let avg_sales := ReplenishmentAgent.avg_sales_of forecasts 1 in
    let target := ReplenishmentAgent.required_stock default_safety_factor 10 100 avg_sales in
    ~ slow_mover Examples.state_selling forecasts Examples.prod_basic /\
    reason line = "Avg sales ≈ 2.2/week, current stock = 3, target stock ≈ 10.0."%string /\
    format_2f avg_sales = "2.25"%string /\
    format_2f (Py.to_float target) = "10.00"%string /\
    ~ reports_two_decimals avg_sales (Py.to_float target) (reason line).
Proof.
  eexists. split; [vm_compute; reflexivity|]. cbv zeta.
  split_and!.
  - intros [Hlt _]. revert Hlt. by vm_compute.
  - by vm_compute.
  - by vm_compute.
  - by vm_compute.
  - intros [H _]. revert H. by vm_compute.
Qed.

(** C7, amended.  For a product that is not classified slow-moving, the
    rationale reports the forecast and the target stock with one digit
    after the point and the current stock as an integer.  The number
    printed for the forecast is within 0.05 of it; the one printed for the
    target is within 0.05 of the target converted to a float, which is the
    target itself unless the target is an int of more than 53 bits. *)
Theorem rationale_one_decimal (safety_factor : Q) (state : State)
    (forecasts : gmap Z Q) (prod : Product) :
  ~ slow_mover state forecasts prod ->
  let line := ReplenishmentAgent.build_line safety_factor state forecasts prod in
  let avg_sales := ReplenishmentAgent.avg_sales_of forecasts (product_id prod) in
  let target :=
    ReplenishmentAgent.required_stock safety_factor (default 0 (min_stock prod))
      (default 100 (max_stock prod)) avg_sales in
  exists avg_text target_text,
    reason line =
      ("Avg sales ≈ " ++ avg_text ++ "/week, current stock = "
       ++ Py.str (current_stock_spec state (product_id prod))
       ++ ", target stock ≈ " ++ target_text ++ ".")%string /\
    one_decimal avg_sales avg_text /\
    one_decimal (Py.to_float target) target_text /\
    (exact_num target -> (Py.to_float target == Py.value target)%Q).
Proof.
  intros Hslow line avg_sales target.
  exists (Py.format_1f avg_sales), (Py.format_1f_num target).
  split; [|split; [apply format_1f_one_decimal|split;
                     [apply format_1f_one_decimal|apply to_float_exact]]].
  subst line avg_sales target.
  rewrite build_line_reason, <- current_stock_of_spec.
  destruct (Py.Qlt_bool _ 1 && _) eqn:E.
  { exfalso. by apply Hslow, slow_mover_cond. }
  apply rationale_text.
Qed.

(** The product of [Examples.state_selling] again. *)
Lemma rationale_one_decimal_witness :
  ~ slow_mover Examples.state_selling {[ 1 := 9 # 4 ]} Examples.prod_basic /\
  exists avg_text target_text,
    reason (ReplenishmentAgent.build_line default_safety_factor Examples.state_selling
              {[ 1 := 9 # 4 ]} Examples.prod_basic) =
      ("Avg sales ≈ " ++ avg_text ++ "/week, current stock = "
       ++ Py.str 3 ++ ", target stock ≈ " ++ target_text ++ ".")%string /\
    one_decimal (9 # 4) avg_text /\
    one_decimal 10 target_text.
Proof.
  assert (H : ~ slow_mover Examples.state_selling {[ 1 := 9 # 4 ]} Examples.prod_basic).
  { intros [Hlt _]. revert Hlt. vm_compute. discriminate. }
  split; [exact H|].
  destruct (rationale_one_decimal default_safety_factor Examples.state_selling
              {[ 1 := 9 # 4 ]} Examples.prod_basic H)
    as (avg_text & target_text & Hreason & Havg & Htarget & _).
  exists avg_text, target_text. exact (conj Hreason (conj Havg Htarget)).
Defined.
